(** * MVN Animate device plugin: the connection and protocol engine

    A shallow embedding of [DeviceMVNAnimate] (mvnanimate/plugin_mvnanimate.py):
    the outbound command queue, the request builders, the response
    dispatcher, the session loop and the connection life cycle, followed by
    the properties established about them.

    Conventions.
    - [str] values are [string]; [bytes] values are [list byte].
    - A [collections.deque] is a list whose head is the deque's LEFT end.
    - [datetime] values are integer microseconds ([Z]); a [timedelta] is the
      difference of two of them, and [total_seconds() > 3.0] is the
      comparison of that difference with 3_000_000.
    - Python exceptions are values of [Exn]; a method is a function from the
      state to an [Outcome], which carries the state at the point where the
      method returned or raised.
    - What the plugin gets from outside the file (the XML library, the
      [Device] base class) is gathered in the class [Runtime]. *)

From Stdlib Require Import ZArith List String Ascii Bool Lia.
From Stdlib.Strings Require Import Byte.
Import ListNotations.

Set Warnings "-register-all".

Open Scope string_scope.
Open Scope Z_scope.
Open Scope list_scope.

Definition bytes := list byte.
Definition Time := Z.

(** A bytes literal. *)
Definition bstr (s : string) : bytes := list_byte_of_string s.

(* ------------------------------------------------------------------ *)
(** ** collections.deque *)

Module Deque.
Section Ops.
Context {A : Type}.

(** [deque()] *)
Definition empty : list A := [].

(** [d.appendleft(x)]: [x] becomes the leftmost element. *)
Definition appendleft (x : A) (d : list A) : list A := x :: d.

(** [d.pop()]: removes and returns the RIGHTMOST element; [None] stands for
    the [IndexError] raised on an empty deque. *)
Fixpoint pop (d : list A) : option (A * list A) :=
  match d with
  | [] => None
  | [x] => Some (x, [])
  | y :: rest =>
      match pop rest with
      | Some (x, rest') => Some (x, y :: rest')
      | None => None
      end
  end.

(** [len(d)] *)
Definition len (d : list A) : nat := List.length d.
End Ops.
End Deque.

(* ------------------------------------------------------------------ *)
(** ** dict and xml.etree.ElementTree.Element *)

(** A [dict] with [str] keys and values, in insertion order. *)
Definition Dict := list (string * string).

(** [d[k] = v]: an existing key keeps its position, a new key goes last. *)
Fixpoint dict_set (k v : string) (d : Dict) : Dict :=
  match d with
  | [] => [(k, v)]
  | (k', v') :: rest =>
      if String.eqb k k' then (k, v) :: rest else (k', v') :: dict_set k v rest
  end.

(** An element: tag, attribute dict and children (text and tail are never
    set by the plugin and never read by its handlers). *)
Inductive Element : Type :=
| Elem (tag : string) (attrib : Dict) (children : list Element).

Definition tag (e : Element) : string :=
  match e with Elem t _ _ => t end.

Definition attrib (e : Element) : Dict :=
  match e with Elem _ a _ => a end.

Definition children (e : Element) : list Element :=
  match e with Elem _ _ c => c end.

(** [Element(tag)] *)
Definition new_Element (t : string) : Element := Elem t [] [].

(** [elem.set(key, val)] *)
Definition Element_set (key val : string) (e : Element) : Element :=
  match e with Elem t a c => Elem t (dict_set key val a) c end.

(** [elem.append(sub)] *)
Definition Element_append (sub : Element) (e : Element) : Element :=
  match e with Elem t a c => Elem t a (c ++ [sub]) end.

(* ------------------------------------------------------------------ *)
(** ** Exceptions and what the decoder can answer *)

Inductive Exn : Type :=
| NameError (ident : string)        (* an identifier bound in no scope *)
| TypeError (msg : string)
| Exception (msg : string)          (* [raise Exception("...")] *)
| OSError                           (* [socket.error] *)
| IndexError (msg : string)
| AttributeError (msg : string)
| LookupError (msg : string)
| ValueError (msg : string).

(** The three ways [fromstring(data)] can end: an element, the library's
    [ParseError], or another exception. *)
Inductive Decoded : Type :=
| Parsed (e : Element)
| ParseError
| DecodeRaises (e : Exn).

(** [switchboard.devices.device_base.DeviceStatus]: the plugin names
    [READY] only; the other members stay opaque. *)
Inductive DeviceStatus : Type :=
| READY
| OtherStatus (code : nat).

(** What the plugin imports: [tostring] and [fromstring] of
    [xml.etree.ElementTree], and the base class's reading of its status
    behind the [is_disconnected] property. *)
Class Runtime : Type := {
  tostring : Element -> bytes;
  fromstring : bytes -> Decoded;
  status_is_disconnected : DeviceStatus -> bool
}.

(* ------------------------------------------------------------------ *)
(** ** Observable effects: the log and the calls towards the host *)

Inductive Level : Type := WARNING | ERROR.

(** One constructor per message the plugin formats. *)
Inductive LogMsg : Type :=
| MsgXmlString (data : Dict)                  (* "XML string : {data}" *)
| MsgIdentifyResponse (xml : bytes)           (* "MVN identify response: {}" *)
| MsgDisconnecting (name : string) (e : Exn)  (* "{name}: Disconnecting due to: {e}" *)
| MsgCouldNotParse (data : bytes)             (* "Could not parse MVN message {}" *)
| MsgNoCallback (name tag : string)           (* "{name}: Could not find callback for {} request" *)
| MsgSetTake (e : Element)                    (* "MVN set take to {}" in set_take *)
| MsgTakeNameSet (xml : bytes)                (* "MVN set take to {}" in the Ack handler *)
| MsgStartingRecording                        (* "Starting MVN recording" *)
| MsgRecordingData (data : Dict)              (* "MVN recording data {}" *)
| MsgStoppingRecording.                       (* "Stopping MVN recording" *)

(** Calls that leave the plugin: base-class methods and Qt signals. *)
Inductive HostCall : Type :=
| record_start_confirm (timecode : string)
| record_stop_confirm (timecode : string) (paths : option (list string))
| signal_device_client_disconnected
| super_disconnect_listener.

(* ------------------------------------------------------------------ *)
(** ** The device object *)

Definition Socket := nat.

Record Device : Type := mkDevice {
  (* fields of the base class that the plugin reads or writes *)
  name : string;
  ip_address : string;
  status : DeviceStatus;
  (* fields set by __init__ *)
  trigger_start : bool;
  trigger_stop : bool;
  _slate : string;
  _take : Z;
  message_queue : list bytes;
  socket : option Socket;
  close_socket : bool;
  last_activity : Time;
  awaiting_echo_response : bool;
  mvn_connection_thread : option nat;
  (* the world around the object *)
  log : list (Level * LogMsg);      (* records logged, oldest first *)
  host_calls : list HostCall;       (* calls towards the host, oldest first *)
  sent : list bytes;                (* datagrams handed to sendto, oldest first *)
  open_sockets : list Socket;       (* sockets created and not closed *)
  threads_started : nat;            (* session-loop threads ever started *)
  running_loops : list nat;         (* session-loop threads that have not exited *)
  joining : option nat              (* the thread the host is blocked on in join() *)
}.

(** Field updates ([self.f = v]). *)
Definition set_status v (d : Device) : Device :=
  mkDevice d.(name) d.(ip_address) v d.(trigger_start) d.(trigger_stop)
    d.(_slate) d.(_take) d.(message_queue) d.(socket) d.(close_socket)
    d.(last_activity) d.(awaiting_echo_response) d.(mvn_connection_thread)
    d.(log) d.(host_calls) d.(sent) d.(open_sockets) d.(threads_started)
    d.(running_loops) d.(joining).

Definition set__slate v (d : Device) : Device :=
  mkDevice d.(name) d.(ip_address) d.(status) d.(trigger_start)
    d.(trigger_stop) v d.(_take) d.(message_queue) d.(socket) d.(close_socket)
    d.(last_activity) d.(awaiting_echo_response) d.(mvn_connection_thread)
    d.(log) d.(host_calls) d.(sent) d.(open_sockets) d.(threads_started)
    d.(running_loops) d.(joining).

Definition set__take v (d : Device) : Device :=
  mkDevice d.(name) d.(ip_address) d.(status) d.(trigger_start)
    d.(trigger_stop) d.(_slate) v d.(message_queue) d.(socket)
    d.(close_socket) d.(last_activity) d.(awaiting_echo_response)
    d.(mvn_connection_thread) d.(log) d.(host_calls) d.(sent) d.(open_sockets)
    d.(threads_started) d.(running_loops) d.(joining).

Definition set_message_queue v (d : Device) : Device :=
  mkDevice d.(name) d.(ip_address) d.(status) d.(trigger_start)
    d.(trigger_stop) d.(_slate) d.(_take) v d.(socket) d.(close_socket)
    d.(last_activity) d.(awaiting_echo_response) d.(mvn_connection_thread)
    d.(log) d.(host_calls) d.(sent) d.(open_sockets) d.(threads_started)
    d.(running_loops) d.(joining).

Definition set_socket v (d : Device) : Device :=
  mkDevice d.(name) d.(ip_address) d.(status) d.(trigger_start)
    d.(trigger_stop) d.(_slate) d.(_take) d.(message_queue) v d.(close_socket)
    d.(last_activity) d.(awaiting_echo_response) d.(mvn_connection_thread)
    d.(log) d.(host_calls) d.(sent) d.(open_sockets) d.(threads_started)
    d.(running_loops) d.(joining).

Definition set_close_socket v (d : Device) : Device :=
  mkDevice d.(name) d.(ip_address) d.(status) d.(trigger_start)
    d.(trigger_stop) d.(_slate) d.(_take) d.(message_queue) d.(socket) v
    d.(last_activity) d.(awaiting_echo_response) d.(mvn_connection_thread)
    d.(log) d.(host_calls) d.(sent) d.(open_sockets) d.(threads_started)
    d.(running_loops) d.(joining).

Definition set_last_activity v (d : Device) : Device :=
  mkDevice d.(name) d.(ip_address) d.(status) d.(trigger_start)
    d.(trigger_stop) d.(_slate) d.(_take) d.(message_queue) d.(socket)
    d.(close_socket) v d.(awaiting_echo_response) d.(mvn_connection_thread)
    d.(log) d.(host_calls) d.(sent) d.(open_sockets) d.(threads_started)
    d.(running_loops) d.(joining).

Definition set_awaiting_echo_response v (d : Device) : Device :=
  mkDevice d.(name) d.(ip_address) d.(status) d.(trigger_start)
    d.(trigger_stop) d.(_slate) d.(_take) d.(message_queue) d.(socket)
    d.(close_socket) d.(last_activity) v d.(mvn_connection_thread) d.(log)
    d.(host_calls) d.(sent) d.(open_sockets) d.(threads_started)
    d.(running_loops) d.(joining).

Definition set_mvn_connection_thread v (d : Device) : Device :=
  mkDevice d.(name) d.(ip_address) d.(status) d.(trigger_start)
    d.(trigger_stop) d.(_slate) d.(_take) d.(message_queue) d.(socket)
    d.(close_socket) d.(last_activity) d.(awaiting_echo_response) v d.(log)
    d.(host_calls) d.(sent) d.(open_sockets) d.(threads_started)
    d.(running_loops) d.(joining).

Definition set_log v (d : Device) : Device :=
  mkDevice d.(name) d.(ip_address) d.(status) d.(trigger_start)
    d.(trigger_stop) d.(_slate) d.(_take) d.(message_queue) d.(socket)
    d.(close_socket) d.(last_activity) d.(awaiting_echo_response)
    d.(mvn_connection_thread) v d.(host_calls) d.(sent) d.(open_sockets)
    d.(threads_started) d.(running_loops) d.(joining).

Definition set_host_calls v (d : Device) : Device :=
  mkDevice d.(name) d.(ip_address) d.(status) d.(trigger_start)
    d.(trigger_stop) d.(_slate) d.(_take) d.(message_queue) d.(socket)
    d.(close_socket) d.(last_activity) d.(awaiting_echo_response)
    d.(mvn_connection_thread) d.(log) v d.(sent) d.(open_sockets)
    d.(threads_started) d.(running_loops) d.(joining).

Definition set_sent v (d : Device) : Device :=
  mkDevice d.(name) d.(ip_address) d.(status) d.(trigger_start)
    d.(trigger_stop) d.(_slate) d.(_take) d.(message_queue) d.(socket)
    d.(close_socket) d.(last_activity) d.(awaiting_echo_response)
    d.(mvn_connection_thread) d.(log) d.(host_calls) v d.(open_sockets)
    d.(threads_started) d.(running_loops) d.(joining).

Definition set_open_sockets v (d : Device) : Device :=
  mkDevice d.(name) d.(ip_address) d.(status) d.(trigger_start)
    d.(trigger_stop) d.(_slate) d.(_take) d.(message_queue) d.(socket)
    d.(close_socket) d.(last_activity) d.(awaiting_echo_response)
    d.(mvn_connection_thread) d.(log) d.(host_calls) d.(sent) v
    d.(threads_started) d.(running_loops) d.(joining).

Definition set_threads_started v (d : Device) : Device :=
  mkDevice d.(name) d.(ip_address) d.(status) d.(trigger_start)
    d.(trigger_stop) d.(_slate) d.(_take) d.(message_queue) d.(socket)
    d.(close_socket) d.(last_activity) d.(awaiting_echo_response)
    d.(mvn_connection_thread) d.(log) d.(host_calls) d.(sent) d.(open_sockets)
    v d.(running_loops) d.(joining).

Definition set_running_loops v (d : Device) : Device :=
  mkDevice d.(name) d.(ip_address) d.(status) d.(trigger_start)
    d.(trigger_stop) d.(_slate) d.(_take) d.(message_queue) d.(socket)
    d.(close_socket) d.(last_activity) d.(awaiting_echo_response)
    d.(mvn_connection_thread) d.(log) d.(host_calls) d.(sent) d.(open_sockets)
    d.(threads_started) v d.(joining).

Definition set_joining v (d : Device) : Device :=
  mkDevice d.(name) d.(ip_address) d.(status) d.(trigger_start)
    d.(trigger_stop) d.(_slate) d.(_take) d.(message_queue) d.(socket)
    d.(close_socket) d.(last_activity) d.(awaiting_echo_response)
    d.(mvn_connection_thread) d.(log) d.(host_calls) d.(sent) d.(open_sockets)
    d.(threads_started) d.(running_loops) v.

(* ------------------------------------------------------------------ *)
(** ** Methods: state passing with exceptions *)

Inductive Outcome (A : Type) : Type :=
| Returned (a : A) (d : Device)
| Raised (e : Exn) (d : Device).
Arguments Returned {A} a d.
Arguments Raised {A} e d.

Definition M (A : Type) : Type := Device -> Outcome A.

Definition ret {A} (a : A) : M A := fun d => Returned a d.

Definition bind {A B} (m : M A) (k : A -> M B) : M B :=
  fun d =>
    match m d with
    | Returned a d' => k a d'
    | Raised e d' => Raised e d'
    end.

Definition raise {A} (e : Exn) : M A := fun d => Raised e d.

(** [try: m  except Exception as e: h e] *)
Definition try_except {A} (m : M A) (h : Exn -> M A) : M A :=
  fun d =>
    match m d with
    | Returned a d' => Returned a d'
    | Raised e d' => h e d'
    end.

Definition get {A} (f : Device -> A) : M A := fun d => Returned (f d) d.
Definition modify (f : Device -> Device) : M unit := fun d => Returned tt (f d).

Notation "x <- m ;; k" := (bind m (fun x => k))
  (at level 61, m at next level, right associativity).
Notation "m ;; k" := (bind m (fun _ => k))
  (at level 61, right associativity).

(** The device a method leaves behind, however it ended. *)
Definition final {A} (o : Outcome A) : Device :=
  match o with Returned _ d => d | Raised _ d => d end.

Definition raises {A} (o : Outcome A) : bool :=
  match o with Returned _ _ => false | Raised _ _ => true end.

(** [LOGGER.warning(...)], [LOGGER.error(...)] *)
Definition LOGGER (lv : Level) (m : LogMsg) : M unit :=
  modify (fun d => set_log (d.(log) ++ [(lv, m)]) d).

(** A call to a base-class method or the emission of a Qt signal. *)
Definition host (c : HostCall) : M unit :=
  modify (fun d => set_host_calls (d.(host_calls) ++ [c]) d).

(** Reading an identifier that no scope binds. *)
Definition unbound {A} (ident : string) : M A := raise (NameError ident).

(* ------------------------------------------------------------------ *)
(** ** class DeviceMVNAnimate *)

(** The two constants at the head of [mvn_connection], in microseconds. *)
Definition ping_interval : Z := 1000000.
Definition disconnect_timeout : Z := 3000000.

(** What the operating system answers when [connect_listener] asks for a
    socket: [socket.socket] fails, [bind] fails on the new socket, or the
    socket is bound. *)
Inductive SocketOpen : Type :=
| SocketFails
| BindFails (h : Socket)
| Bound (h : Socket).

(** What the network does once a message has been popped: the flush or the
    [sendto] raises, the datagram leaves and [select]/[recv] raises, no
    reply within the read timeout, or one datagram read at clock [t_recv]. *)
Inductive Net : Type :=
| NetSendFails
| NetRecvFails
| NetSilent
| NetReply (data : bytes) (t_recv : Time).

(** The environment of one pass through the loop body. *)
Record Tick : Type := mkTick {
  net : Net;
  t_check : Time;         (* [datetime.datetime.now()] at line 160 *)
  shutdown_ok : bool      (* whether [socket.shutdown] returns *)
}.

Inductive Ctl : Type := Continue | Break.

Section Plugin.
Context {rt : Runtime}.

(** [__init__]; [now] is the clock at construction and [st] the status
    the base class starts with. *)
Definition init (nm ip : string) (st : DeviceStatus) (now : Time) : Device :=
  mkDevice nm ip st true true "slate" 1 Deque.empty None false now false None
    [] [] [] [] 0%nat [] None.

(** [send_string_to_mvn] *)
Definition send_string_to_mvn (data : bytes) : M unit :=
  modify (fun d => set_message_queue (Deque.appendleft data d.(message_queue)) d).

(** [send_request_to_mvn] *)
Definition send_request_to_mvn (message_type : string) (data : Dict) : M unit :=
  let elem :=
    fold_left (fun e kv => Element_set (fst kv) (snd kv) e) data
              (new_Element message_type) in
  let message_str := tostring elem in
  LOGGER WARNING (MsgXmlString data) ;;
  send_string_to_mvn message_str.

(** [send_identify_request] *)
Definition send_identify_request : M unit :=
  awaiting <- get awaiting_echo_response ;;
  if awaiting : bool then ret tt
  else
    modify (set_awaiting_echo_response true) ;;
    send_request_to_mvn "IdentifyReq" [].

(** [on_mvn_identify_response] *)
Definition on_mvn_identify_response (response : Element) : M unit :=
  modify (set_awaiting_echo_response false) ;;
  modify (set_status READY) ;;
  LOGGER WARNING (MsgIdentifyResponse (tostring response)).

(** [is_connected] *)
Definition is_connected (d : Device) : bool :=
  match d.(socket) with
  | Some _ => true
  | None => false
  end.

(** [is_disconnected], a property of the base class. *)
Definition is_disconnected (d : Device) : bool :=
  status_is_disconnected d.(status).

(** [Thread(target=self.mvn_connection)] followed by [start()]. *)
Definition start_mvn_connection_thread : M unit :=
  tid <- get threads_started ;;
  modify (set_mvn_connection_thread (Some tid)) ;;
  modify (set_threads_started (S tid)) ;;
  modify (fun d => set_running_loops (d.(running_loops) ++ [tid]) d).

(** [connect_listener] *)
Definition connect_listener (os : SocketOpen) (now : Time) : M unit :=
  modify (set_close_socket false) ;;
  match os with
  | SocketFails => raise OSError
  | BindFails h =>
      modify (set_socket (Some h)) ;;
      modify (fun d => set_open_sockets (d.(open_sockets) ++ [h]) d) ;;
      raise OSError
  | Bound h =>
      modify (set_socket (Some h)) ;;
      modify (fun d => set_open_sockets (d.(open_sockets) ++ [h]) d) ;;
      modify (set_last_activity now) ;;
      start_mvn_connection_thread ;;
      modify (set_awaiting_echo_response false) ;;
      send_identify_request
  end.

(** [disconnect_listener] up to the point where [join()] blocks; when the
    thread has already exited the call runs to its end. The rest of the
    method runs in [after_join]. *)
Definition disconnect_listener : M unit :=
  c <- get is_connected ;;
  if c : bool then
    modify (set_close_socket true) ;;
    th <- get mvn_connection_thread ;;
    match th with
    | None => raise (AttributeError "join")
    | Some tid =>
        running <- get running_loops ;;
        if existsb (Nat.eqb tid) running
        then modify (set_joining (Some tid))
        else host super_disconnect_listener
    end
  else ret tt.

(** [disconnect_listener] once [join()] has returned. *)
Definition after_join : M unit :=
  modify (set_joining None) ;;
  host super_disconnect_listener.

(** [timecode] *)
Definition timecode (d : Device) : string := "00:00:00:00".

(** [on_mvn_record_take_name_set] *)
Definition on_mvn_record_take_name_set (response : Element) : M unit :=
  LOGGER WARNING (MsgTakeNameSet (tostring response)).

(** [on_mvn_recording_started] *)
Definition on_mvn_recording_started (response : Element) : M unit :=
  tc <- get timecode ;;
  host (record_start_confirm tc).

(** [on_mvn_recording_stopped] *)
Definition on_mvn_recording_stopped (response : Element) : M unit :=
  tc <- get timecode ;;
  host (record_stop_confirm tc None).

(** [self.command_response_callbacks], filled by [__init__] and never
    written again. *)
Definition command_response_callbacks : list (string * (Element -> M unit)) :=
  [ ("IdentifyAck", on_mvn_identify_response);
    ("StartRecordingAck", on_mvn_recording_started);
    ("StopRecordingAck", on_mvn_recording_stopped);
    ("CaptureNameAck", on_mvn_record_take_name_set) ].

(** [d[k]] guarded by [k in d]. *)
Fixpoint dict_get {V} (k : string) (d : list (string * V)) : option V :=
  match d with
  | [] => None
  | (k', v) :: rest => if String.eqb k k' then Some v else dict_get k rest
  end.

(** [process_message]; [now] is the clock read at line 201. *)
Definition process_message (now : Time) (data : bytes) : M unit :=
  modify (set_last_activity now) ;;
  match fromstring data with
  | ParseError =>
      (* except ParseError *)
      LOGGER ERROR (MsgCouldNotParse data)
  | DecodeRaises e => raise e
  | Parsed msg_elem =>
      match dict_get (tag msg_elem) command_response_callbacks with
      | Some callback => callback msg_elem
      | None =>
          nm <- get name ;;
          cmd_name <- unbound "cmd_name" ;;
          LOGGER ERROR (MsgNoCallback nm cmd_name)
      end
  end.

(** [set_take]. Line 223 reads [state_elem] and [value], line 227 reads
    [value]: none of them is bound in the method, the class or the module.
    Line 231 passes two arguments to the one-parameter
    [send_string_to_mvn]. *)
Definition set_take (take_name : string) (take_num : Z) : M unit :=
  modify (set__slate take_name) ;;
  modify (set__take take_num) ;;
  let msg_elem := new_Element "CaptureName" in
  let slate_elem := new_Element "Name" in
  state_elem <- unbound (A := Element) "state_elem" ;;
  value <- unbound (A := string) "value" ;;
  let state_elem := Element_set "VALUE" value state_elem in
  let msg_elem := Element_append slate_elem msg_elem in
  let take_elem := new_Element "Take" in
  value <- unbound (A := string) "value" ;;
  let take_elem := Element_set "VALUE" value take_elem in
  let msg_elem := Element_append take_elem msg_elem in
  LOGGER WARNING (MsgSetTake msg_elem) ;;
  let message_str := tostring msg_elem in
  raise (TypeError "send_string_to_mvn() takes 2 positional arguments but 3 were given").

(** [record_start] *)
Definition record_start (slate : string) (take : Z) (description : string)
  : M unit :=
  LOGGER WARNING MsgStartingRecording ;;
  disc <- get is_disconnected ;;
  trig <- get trigger_start ;;
  if (disc || negb trig)%bool then ret tt
  else
    let recording_req_data : Dict :=
      [("SessionName", slate); ("Description", description)] in
    LOGGER WARNING (MsgRecordingData recording_req_data) ;;
    send_request_to_mvn "StartRecordingReq" recording_req_data.

(** [record_stop] *)
Definition record_stop : M unit :=
  LOGGER WARNING MsgStoppingRecording ;;
  disc <- get is_disconnected ;;
  trig <- get trigger_stop ;;
  if (disc || negb trig)%bool then ret tt
  else send_request_to_mvn "StopRecordingReq" [].

(** *** The session loop, [mvn_connection] *)

(** Lines 143-144: the queue drain. [None] when the queue is empty. *)
Definition pop_message : M (option bytes) :=
  q <- get message_queue ;;
  if Nat.eqb (Deque.len q) 0 then ret None
  else
    match Deque.pop q with
    | Some (message_str, q') =>
        modify (set_message_queue q') ;;
        ret (Some message_str)
    | None => raise (IndexError "pop from an empty deque")
    end.

(** Lines 146-156: flush, send, wait for a reply and process it. The
    read list holds the one socket, so at most one datagram is read. *)
Definition exchange (message_str : bytes) (n : Net) : M unit :=
  match n with
  | NetSendFails => raise OSError
  | NetRecvFails =>
      modify (fun d => set_sent (d.(sent) ++ [message_str]) d) ;;
      raise OSError
  | NetSilent =>
      modify (fun d => set_sent (d.(sent) ++ [message_str]) d)
  | NetReply received_data t_recv =>
      modify (fun d => set_sent (d.(sent) ++ [message_str]) d) ;;
      process_message t_recv received_data
  end.

(** Lines 160-165: the inactivity check. *)
Definition check_activity (now : Time) : M unit :=
  la <- get last_activity ;;
  let activity_delta := now - la in
  if disconnect_timeout <? activity_delta
  then raise (Exception "Connection timeout")
  else if ping_interval <? activity_delta
  then send_identify_request
  else ret tt.

(** Lines 167-171: the clean shutdown. *)
Definition close_if_requested (ok : bool) : M Ctl :=
  c <- get close_socket ;;
  q <- get message_queue ;;
  if (c && Nat.eqb (Deque.len q) 0)%bool then
    if ok then
      modify (fun d =>
        match d.(socket) with
        | Some h =>
            set_open_sockets
              (filter (fun h' => negb (Nat.eqb h h')) d.(open_sockets)) d
        | None => d
        end) ;;
      modify (set_socket None) ;;
      ret Break
    else raise OSError
  else ret Continue.

(** The [try] block of one pass. *)
Definition mvn_connection_try (tk : Tick) : M Ctl :=
  m <- pop_message ;;
  match m with
  | Some message_str => exchange message_str tk.(net)
  | None => ret tt                  (* time.sleep(0.01) *)
  end ;;
  check_activity tk.(t_check) ;;
  close_if_requested tk.(shutdown_ok).

(** Lines 173-177: the handler of the pass. *)
Definition mvn_connection_except (e : Exn) : M Ctl :=
  nm <- get name ;;
  LOGGER WARNING (MsgDisconnecting nm e) ;;
  host signal_device_client_disconnected ;;
  ret Break.

(** One evaluation of the [while] test and, when it holds, of the body. *)
Definition mvn_connection_pass (tk : Tick) : M Ctl :=
  c <- get is_connected ;;
  if c : bool
  then try_except (mvn_connection_try tk) mvn_connection_except
  else ret Break.

(** [mvn_connection] against the environment [ticks]: [Break] when the
    loop has exited, [Continue] when it is still running after them. *)
Fixpoint mvn_connection (ticks : list Tick) : M Ctl :=
  match ticks with
  | [] => ret Continue
  | tk :: rest =>
      c <- mvn_connection_pass tk ;;
      match c with
      | Break => ret Break
      | Continue => mvn_connection rest
      end
  end.

(** *** The device in use: host calls interleaved with loop passes *)

Inductive HostOp : Type :=
| Connect (os : SocketOpen) (now : Time)
| Disconnect
| RecordStart (slate : string) (take : Z) (description : string)
| RecordStop
| SetTake (take_name : string) (take_num : Z).

Inductive Event : Type :=
| Host (op : HostOp)
| Loop (tid : nat) (tk : Tick).

Definition host_call (op : HostOp) : M unit :=
  match op with
  | Connect os now => connect_listener os now
  | Disconnect => disconnect_listener
  | RecordStart slate take description => record_start slate take description
  | RecordStop => record_stop
  | SetTake take_name take_num => set_take take_name take_num
  end.

(** One pass of thread [tid]; when the thread exits it leaves
    [running_loops], and a host blocked in [join()] on it resumes. *)
Definition loop_event (tid : nat) (tk : Tick) : M unit :=
  c <- mvn_connection_pass tk ;;
  match c with
  | Continue => ret tt
  | Break =>
      modify (fun d =>
        set_running_loops
          (filter (fun t => negb (Nat.eqb tid t)) d.(running_loops)) d) ;;
      j <- get joining ;;
      match j with
      | Some tid' => if Nat.eqb tid tid' then after_join else ret tt
      | None => ret tt
      end
  end.

(** An exception of a host call goes to the caller: the device stays as
    the call left it. A host blocked in [join()] makes no call, and a
    thread that is not running makes no pass. *)
Definition step (ev : Event) (d : Device) : Device :=
  match ev with
  | Host op =>
      match d.(joining) with
      | Some _ => d
      | None => final (host_call op d)
      end
  | Loop tid tk =>
      if existsb (Nat.eqb tid) d.(running_loops)
      then final (loop_event tid tk d)
      else d
  end.

Definition run (evs : list Event) (d : Device) : Device :=
  fold_left (fun d ev => step ev d) evs d.

(** *** The queue on its own: pushes and drains *)

Inductive QueueOp : Type :=
| Push (message : bytes)      (* send_string_to_mvn *)
| Pop.                        (* the drain of one loop pass *)

(** Runs the operations in order; the result lists what the drains
    returned, oldest first. *)
Fixpoint queue_run (ops : list QueueOp) (d : Device) : list bytes * Device :=
  match ops with
  | [] => ([], d)
  | Push m :: rest => queue_run rest (final (send_string_to_mvn m d))
  | Pop :: rest =>
      match pop_message d with
      | Returned (Some m) d' =>
          let (out, d'') := queue_run rest d' in (m :: out, d'')
      | Returned None d' => queue_run rest d'
      | Raised _ d' => queue_run rest d'
      end
  end.

Fixpoint pushed (ops : list QueueOp) : list bytes :=
  match ops with
  | [] => []
  | Push m :: rest => m :: pushed rest
  | Pop :: rest => pushed rest
  end.

End Plugin.

(* ------------------------------------------------------------------ *)
(** ** A runtime to run the model on concrete datagrams *)

Module Sample.

Definition dquote : string := String (ascii_of_nat 34) EmptyString.

(** [_escape_attrib] of ElementTree, on ASCII text. *)
Definition escape_char (c : ascii) : string :=
  if Ascii.eqb c "&" then "&amp;"
  else if Ascii.eqb c "<" then "&lt;"
  else if Ascii.eqb c ">" then "&gt;"
  else if Ascii.eqb c (ascii_of_nat 34) then "&quot;"
  else if Ascii.eqb c (ascii_of_nat 13) then "&#13;"
  else if Ascii.eqb c (ascii_of_nat 10) then "&#10;"
  else if Ascii.eqb c (ascii_of_nat 9) then "&#09;"
  else String c EmptyString.

Fixpoint escape_attrib (s : string) : string :=
  match s with
  | EmptyString => EmptyString
  | String c rest => (escape_char c ++ escape_attrib rest)%string
  end.

Fixpoint join (l : list string) : string :=
  match l with
  | [] => EmptyString
  | x :: rest => (x ++ join rest)%string
  end.

Definition serialize_attrib (kv : string * string) : string :=
  (" " ++ fst kv ++ "=" ++ dquote ++ escape_attrib (snd kv) ++ dquote)%string.

(** ElementTree's XML serializer with short empty elements, for elements
    without text: [<tag k="v" />] or [<tag k="v">children</tag>]. *)
Fixpoint serialize (e : Element) : string :=
  match e with
  | Elem t a c =>
      ("<" ++ t ++ join (map serialize_attrib a) ++
       match c with
       | [] => " />"
       | _ => ">" ++ join (map serialize c) ++ "</" ++ t ++ ">"
       end)%string
  end.

Definition tostring (e : Element) : bytes := bstr (serialize e).

Fixpoint bytes_eqb (x y : bytes) : bool :=
  match x, y with
  | [], [] => true
  | a :: x', c :: y' => (Byte.eqb a c && bytes_eqb x' y')%bool
  | _, _ => false
  end.

(** What CPython's [fromstring] answers on a few datagrams. The last one
    is a truncated element behind a declaration that names an encoding
    Python has no codec for: the library raises [LookupError] there, not
    [ParseError]. *)
Definition known_datagrams : list (bytes * Decoded) :=
  [ (bstr "<IdentifyAck/>", Parsed (Elem "IdentifyAck" [] []));
    (bstr "<StartRecordingAck/>", Parsed (Elem "StartRecordingAck" [] []));
    (bstr "<StopRecordingAck/>", Parsed (Elem "StopRecordingAck" [] []));
    (bstr "<CaptureNameAck/>", Parsed (Elem "CaptureNameAck" [] []));
    (bstr "<Foo/>", Parsed (Elem "Foo" [] []));
    (bstr "<?xml version='1.0' encoding='foo'?><a",
     DecodeRaises (LookupError "unknown encoding: foo")) ].

(** The table above; any other datagram is answered with [ParseError],
    as the library does for truncated or non-markup bytes. *)
Fixpoint decode_in (table : list (bytes * Decoded)) (data : bytes) : Decoded :=
  match table with
  | [] => ParseError
  | (k, v) :: rest => if bytes_eqb data k then v else decode_in rest data
  end.

Definition fromstring (data : bytes) : Decoded := decode_in known_datagrams data.

(** A base class for which only status 0 counts as disconnected. *)
Definition status_is_disconnected (st : DeviceStatus) : bool :=
  match st with
  | READY => false
  | OtherStatus code => Nat.eqb code 0
  end.

#[export] Instance runtime : Runtime :=
  Build_Runtime tostring fromstring status_is_disconnected.

(** A fresh device, and the device once the host has connected it at
    clock 0 on socket 7. *)
Definition fresh : Device := init "MVN" "127.0.0.1" (OtherStatus 0) 0.
Definition connected : Device := final (connect_listener (Bound 7%nat) 0 fresh).

(** The connected device after the pass that sends the probe and reads
    [<IdentifyAck/>] at clock 10. *)
Definition ready : Device :=
  final (mvn_connection_pass (mkTick (NetReply (bstr "<IdentifyAck/>") 10) 20 true)
                             connected).

End Sample.

(* ------------------------------------------------------------------ *)
(** ** Measures over the observable effects *)

Definition is_disconnect_signal (c : HostCall) : bool :=
  match c with
  | signal_device_client_disconnected => true
  | _ => false
  end.

(** How often [signal_device_client_disconnected] has been emitted. *)
Definition signals_emitted (d : Device) : nat :=
  List.length (filter is_disconnect_signal d.(host_calls)).

(** The keys of [command_response_callbacks]. *)
Definition registered_tags : list string :=
  ["IdentifyAck"; "StartRecordingAck"; "StopRecordingAck"; "CaptureNameAck"].

(** What a step of the connection engine leaves alone unless it shuts the
    socket down or signals a disconnection. *)
Definition same_connection (d d' : Device) : Prop :=
  d'.(socket) = d.(socket) /\
  d'.(close_socket) = d.(close_socket) /\
  d'.(open_sockets) = d.(open_sockets) /\
  signals_emitted d' = signals_emitted d.

(** How many drains a sequence of queue operations holds. *)
Fixpoint pops (ops : list QueueOp) : nat :=
  match ops with
  | [] => 0%nat
  | Push _ :: rest => pops rest
  | Pop :: rest => S (pops rest)
  end.

(** Whether every drain of the sequence finds a message, on a queue that
    starts with [n] messages. The session loop calls [pop()] under
    [if len(self.message_queue)], so these are the sequences in which every
    drain is a [pop()]. *)
Fixpoint never_drains_empty (ops : list QueueOp) (n : nat) : bool :=
  match ops with
  | [] => true
  | Push _ :: rest => never_drains_empty rest (S n)
  | Pop :: rest =>
      match n with
      | O => false
      | S n' => never_drains_empty rest n'
      end
  end.

(** A pass environment without inbound traffic whose exchange does not
    fail and whose inactivity check reads the clock within the ping
    interval of [la]; whether [socket.shutdown] would return is left open. *)
Definition silent_tick (la : Time) (tk : Tick) : Prop :=
  tk.(net) = NetSilent /\
  tk.(t_check) - la <= ping_interval.

(** A pass environment without inbound traffic and without failure, whose
    inactivity check reads the clock within the ping interval of [la]. *)
Definition quiet_tick (la : Time) (tk : Tick) : Prop :=
  tk.(net) = NetSilent /\
  tk.(t_check) - la <= ping_interval /\
  tk.(shutdown_ok) = true.

(* ------------------------------------------------------------------ *)
(** ** class DeviceWidgetMVNAnimate *)

Module Widget.

(** The two properties of a button that the widget reads or writes. *)
Record Button : Type := mkButton {
  checked : bool;
  disabled : bool
}.

(** [setChecked], [setDisabled] *)
Definition setChecked (v : bool) (bt : Button) : Button := mkButton v bt.(disabled).
Definition setDisabled (v : bool) (bt : Button) : Button := mkButton bt.(checked) v.

(** The signals of the base widget that the handlers emit. *)
Inductive Signal : Type :=
| signal_device_widget_trigger_start_toggled (on : bool)
| signal_device_widget_trigger_stop_toggled (on : bool)
| signal_device_widget_connect
| signal_device_widget_disconnect.

Record DeviceWidget : Type := mkWidget {
  trigger_start_button : Button;
  trigger_stop_button : Button;
  connect_button : Button;
  emitted : list Signal             (* oldest first *)
}.

Definition emit (s : Signal) (w : DeviceWidget) : DeviceWidget :=
  mkWidget w.(trigger_start_button) w.(trigger_stop_button) w.(connect_button)
           (w.(emitted) ++ [s]).

(** [_add_control_buttons]: both trigger buttons are created checked and
    then disabled; [connect_button] is created by the base class's
    [add_control_button] with its defaults, here [connect0]. *)
Definition _add_control_buttons (connect0 : Button) : DeviceWidget :=
  let trigger_start_button := mkButton true false in
  let trigger_stop_button := mkButton true false in
  mkWidget (setDisabled true trigger_start_button)
           (setDisabled true trigger_stop_button)
           connect0 [].

(** [trigger_start_clicked] *)
Definition trigger_start_clicked (w : DeviceWidget) : DeviceWidget :=
  if w.(trigger_start_button).(checked)
  then emit (signal_device_widget_trigger_start_toggled true) w
  else emit (signal_device_widget_trigger_start_toggled false) w.

(** [trigger_stop_clicked] *)
Definition trigger_stop_clicked (w : DeviceWidget) : DeviceWidget :=
  if w.(trigger_stop_button).(checked)
  then emit (signal_device_widget_trigger_stop_toggled true) w
  else emit (signal_device_widget_trigger_stop_toggled false) w.

(** [_connect] *)
Definition _connect (w : DeviceWidget) : DeviceWidget :=
  let w := mkWidget w.(trigger_start_button) w.(trigger_stop_button)
                    (setChecked true w.(connect_button)) w.(emitted) in
  let w := mkWidget (setDisabled false w.(trigger_start_button))
                    w.(trigger_stop_button) w.(connect_button) w.(emitted) in
  let w := mkWidget w.(trigger_start_button)
                    (setDisabled false w.(trigger_stop_button))
                    w.(connect_button) w.(emitted) in
  emit signal_device_widget_connect w.

(** [_disconnect] *)
Definition _disconnect (w : DeviceWidget) : DeviceWidget :=
  let w := mkWidget w.(trigger_start_button) w.(trigger_stop_button)
                    (setChecked false w.(connect_button)) w.(emitted) in
  let w := mkWidget (setDisabled true w.(trigger_start_button))
                    w.(trigger_stop_button) w.(connect_button) w.(emitted) in
  let w := mkWidget w.(trigger_start_button)
                    (setDisabled true w.(trigger_stop_button))
                    w.(connect_button) w.(emitted) in
  emit signal_device_widget_disconnect w.

(** [connect_button_clicked] *)
Definition connect_button_clicked (w : DeviceWidget) : DeviceWidget :=
  if w.(connect_button).(checked) then _connect w else _disconnect w.

(** The handlers as the toolkit or the host may call them, in any order. *)
Inductive Call : Type :=
| TriggerStartClicked
| TriggerStopClicked
| ConnectButtonClicked
| DoConnect
| DoDisconnect.

Definition call (c : Call) (w : DeviceWidget) : DeviceWidget :=
  match c with
  | TriggerStartClicked => trigger_start_clicked w
  | TriggerStopClicked => trigger_stop_clicked w
  | ConnectButtonClicked => connect_button_clicked w
  | DoConnect => _connect w
  | DoDisconnect => _disconnect w
  end.

Definition calls (cs : list Call) (w : DeviceWidget) : DeviceWidget :=
  fold_left (fun w c => call c w) cs w.

(** The calls that go through [_connect] or [_disconnect]. *)
Definition touches_connect (c : Call) : bool :=
  match c with
  | ConnectButtonClicked | DoConnect | DoDisconnect => true
  | TriggerStartClicked | TriggerStopClicked => false
  end.

(** The signal a call emits, read off the widget before the call. *)
Definition signal_of (c : Call) (w : DeviceWidget) : Signal :=
  match c with
  | TriggerStartClicked =>
      signal_device_widget_trigger_start_toggled w.(trigger_start_button).(checked)
  | TriggerStopClicked =>
      signal_device_widget_trigger_stop_toggled w.(trigger_stop_button).(checked)
  | ConnectButtonClicked =>
      if w.(connect_button).(checked)
      then signal_device_widget_connect
      else signal_device_widget_disconnect
  | DoConnect => signal_device_widget_connect
  | DoDisconnect => signal_device_widget_disconnect
  end.

(** The trigger buttons are usable exactly when the connect button shows
    the connected state. *)
Definition triggers_follow_connect (w : DeviceWidget) : Prop :=
  w.(trigger_start_button).(disabled) = negb w.(connect_button).(checked) /\
  w.(trigger_stop_button).(disabled) = negb w.(connect_button).(checked).

End Widget.

(* ================================================================== *)
(** * Properties *)

(** Unfolds the method combinators. *)
Ltac run_m :=
  unfold bind, ret, raise, get, modify, LOGGER, host, unbound, try_except;
  simpl.

(* ------------------------------------------------------------------ *)
(** ** The model on the scenarios of the protocol *)

Example identify_request_on_the_wire :
  Sample.tostring (new_Element "IdentifyReq") = bstr "<IdentifyReq />".
Proof. vm_compute. reflexivity. Qed.

(** connect, probe sent, [IdentifyAck] read: READY, flag cleared, loop on. *)
Example connect_then_identify_ack :
  let tk := mkTick (NetReply (bstr "<IdentifyAck/>") 10) 20 true in
  Sample.connected.(message_queue) = [bstr "<IdentifyReq />"] /\
  Sample.connected.(awaiting_echo_response) = true /\
  mvn_connection_pass (rt := Sample.runtime) tk Sample.connected
  = Returned Continue Sample.ready /\
  Sample.ready.(sent) = [bstr "<IdentifyReq />"] /\
  Sample.ready.(status) = READY /\
  Sample.ready.(awaiting_echo_response) = false /\
  Sample.ready.(last_activity) = 10.
Proof. cbv zeta. repeat split; vm_compute; reflexivity. Qed.

(** [record_start("sceneA", 3, "desc")] on the ready device, then the pass
    that sends the request and reads [StartRecordingAck]. *)
Example record_start_then_ack :
  let q := Sample.dquote in
  let wire :=
    bstr ("<StartRecordingReq SessionName=" ++ q ++ "sceneA" ++ q
          ++ " Description=" ++ q ++ "desc" ++ q ++ " />")%string in
  let d := final (record_start (rt := Sample.runtime) "sceneA" 3 "desc" Sample.ready) in
  let tk := mkTick (NetReply (bstr "<StartRecordingAck/>") 30) 40 true in
  let d' := final (mvn_connection_pass (rt := Sample.runtime) tk d) in
  d.(message_queue) = [wire] /\
  d'.(sent) = [bstr "<IdentifyReq />"; wire] /\
  d'.(host_calls) = [record_start_confirm "00:00:00:00"].
Proof. cbv zeta. repeat split; vm_compute; reflexivity. Qed.

(** No datagram for 3.1 s: the pass signals the disconnection and leaves. *)
Example silence_for_3100_ms :
  let tk := mkTick NetSilent 3110000 true in
  exists d',
    mvn_connection_pass (rt := Sample.runtime) tk Sample.ready = Returned Break d' /\
    d'.(host_calls) = [signal_device_client_disconnected] /\
    d'.(log) = Sample.ready.(log)
               ++ [(WARNING, MsgDisconnecting "MVN" (Exception "Connection timeout"))].
Proof. cbv zeta. eexists. repeat split; vm_compute; reflexivity. Qed.

(** [disconnect_listener] on the ready device: the host blocks in the join,
    the next pass closes the socket, and the call then finishes. *)
Example disconnect_closes_the_socket :
  let d := run (rt := Sample.runtime)
               [Host Disconnect; Loop 0%nat (mkTick NetSilent 50 true)]
               Sample.ready in
  (step (rt := Sample.runtime) (Host Disconnect) Sample.ready).(joining) = Some 0%nat /\
  d.(socket) = None /\
  d.(open_sockets) = [] /\
  d.(running_loops) = [] /\
  d.(joining) = None /\
  d.(host_calls) = [super_disconnect_listener].
Proof. cbv zeta. repeat split; vm_compute; reflexivity. Qed.

(* ------------------------------------------------------------------ *)
(** ** The deque *)

Module DequeFacts.
Section Facts.
Context {A : Type}.
Implicit Types (d : list A) (x : A).

Lemma pop_snoc d x : Deque.pop (d ++ [x]) = Some (x, d).
Proof.
  induction d as [|y d IH]; simpl; [reflexivity|].
  rewrite IH. destruct (d ++ [x]) eqn:E; [|reflexivity].
  destruct d; discriminate.
Qed.

Lemma pop_some d x d' : Deque.pop d = Some (x, d') -> d = d' ++ [x].
Proof.
  destruct d as [|y d]; [discriminate|].
  destruct (@exists_last A (y :: d)) as [d0 [x0 E]]; [discriminate|].
  rewrite E, pop_snoc. intros H. injection H as <- <-. reflexivity.
Qed.

Lemma pop_none d : Deque.pop d = None -> d = [].
Proof.
  destruct d as [|y d]; [reflexivity|].
  destruct (@exists_last A (y :: d)) as [d0 [x0 E]]; [discriminate|].
  rewrite E, pop_snoc. discriminate.
Qed.

Lemma pop_cons_some y d : exists x d', Deque.pop (y :: d) = Some (x, d').
Proof.
  destruct (@exists_last A (y :: d)) as [d0 [x0 E]]; [discriminate|].
  exists x0, d0. rewrite E. apply pop_snoc.
Qed.
End Facts.
End DequeFacts.

(* ------------------------------------------------------------------ *)
(** ** The outbound command queue *)

Section QueueFacts.

Lemma send_string_to_mvn_queue (m : bytes) (d : Device) :
  send_string_to_mvn m d = Returned tt (set_message_queue (m :: d.(message_queue)) d).
Proof. reflexivity. Qed.

(** The drain never raises: on an empty queue it returns nothing and
    leaves the device alone, otherwise it takes the rightmost message. *)
Lemma pop_message_cases (d : Device) :
  (d.(message_queue) = [] /\ pop_message d = Returned None d) \/
  (exists m q', d.(message_queue) = q' ++ [m] /\
                pop_message d = Returned (Some m) (set_message_queue q' d)).
Proof.
  unfold pop_message; run_m.
  destruct (message_queue d) as [|y q] eqn:E.
  - left. split; reflexivity.
  - right. destruct (DequeFacts.pop_cons_some y q) as (m & q' & Hp).
    exists m, q'. split.
    + apply DequeFacts.pop_some. exact Hp.
    + change (Nat.eqb (Deque.len (y :: q)) 0) with false. cbv iota.
      rewrite Hp. reflexivity.
Qed.

Lemma queue_run_order (ops : list QueueOp) : forall d : Device,
  fst (queue_run ops d) ++ rev (snd (queue_run ops d)).(message_queue)
  = rev d.(message_queue) ++ pushed ops.
Proof.
  induction ops as [|[m|] ops IH]; intros d; simpl.
  - rewrite app_nil_r. reflexivity.
  - rewrite IH. simpl. rewrite <- app_assoc. reflexivity.
  - destruct (pop_message_cases d) as [[Hq Hp]|(m & q' & Hq & Hp)];
      rewrite Hp.
    + apply IH.
    + specialize (IH (set_message_queue q' d)).
      destruct (queue_run ops (set_message_queue q' d)) as [out d''].
      simpl in *. rewrite IH, Hq, rev_app_distr. reflexivity.
Qed.

End QueueFacts.

Section DrainFacts.

Lemma queue_run_pops (ops : list QueueOp) : forall d : Device,
  never_drains_empty ops (List.length d.(message_queue)) = true ->
  List.length (fst (queue_run ops d)) = pops ops.
Proof.
  induction ops as [|[m|] ops IH]; intros d H; simpl in *.
  - reflexivity.
  - apply IH. simpl. exact H.
  - destruct (pop_message_cases d) as [[Hq Hp]|(m & q' & Hq & Hp)].
    + rewrite Hq in H. discriminate H.
    + rewrite Hp. rewrite Hq, List.length_app in H. simpl in H.
      rewrite Nat.add_1_r in H.
      specialize (IH (set_message_queue q' d) H).
      destruct (queue_run ops (set_message_queue q' d)) as [out d''].
      simpl in *. rewrite IH. reflexivity.
Qed.

Lemma split_at_length {A} (l1 l2 l : list A) :
  l1 ++ l2 = l ->
  l1 = firstn (List.length l1) l /\ l2 = skipn (List.length l1) l.
Proof.
  intros <-. split.
  - rewrite firstn_app, firstn_all, Nat.sub_diag. simpl.
    rewrite app_nil_r. reflexivity.
  - rewrite skipn_app, skipn_all, Nat.sub_diag. reflexivity.
Qed.

End DrainFacts.

(** C1 (amended to what [appendleft] with [pop] does). A drain of the
    session loop on a non-empty queue removes the RIGHTMOST message, which
    is the oldest one not yet popped, and returns it; on an empty queue it
    returns nothing and changes nothing. Over a sequence of pushes and
    drains in which no drain meets an empty queue, the K drains return the
    K oldest messages in the order they were pushed (first in, first out),
    what remains queued is the rest in that order, and with N pushes the
    queue holds the initial length plus N minus K messages. *)
Theorem queue_drains_oldest_first
    (ops : list QueueOp) (d d0 : Device) (q : list bytes) (m : bytes) :
  d0.(message_queue) = q ++ [m] ->
  never_drains_empty ops (List.length d.(message_queue)) = true ->
  let out := fst (queue_run ops d) in
  let d' := snd (queue_run ops d) in
  let history := rev d.(message_queue) ++ pushed ops in
  pop_message d0 = Returned (Some m) (set_message_queue q d0) /\
  pop_message (set_message_queue [] d0)
  = Returned None (set_message_queue [] d0) /\
  List.length out = pops ops /\
  out = firstn (pops ops) history /\
  rev d'.(message_queue) = skipn (pops ops) history /\
  List.length d'.(message_queue)
  = (List.length d.(message_queue) + List.length (pushed ops) - pops ops)%nat.
Proof.
  intros Hq Hne. cbv zeta.
  pose proof (queue_run_order ops d) as Hord.
  pose proof (queue_run_pops ops d Hne) as Hlen.
  destruct (split_at_length _ _ _ Hord) as [Hout Hrest].
  rewrite Hlen in Hout, Hrest.
  split.
  { destruct (pop_message_cases d0) as [[Hq' _]|(m' & q' & Hq' & Hp)].
    - rewrite Hq in Hq'. destruct q; discriminate.
    - rewrite Hq in Hq'. apply app_inj_tail in Hq' as [<- <-]. exact Hp. }
  split; [reflexivity|].
  split; [exact Hlen|]. split; [exact Hout|]. split; [exact Hrest|].
  apply (f_equal (@List.length bytes)) in Hord.
  rewrite !List.length_app, !List.length_rev in Hord. lia.
Qed.

(** The theorem on two pushes followed by one drain, from the fresh sample
    device, and on the device after the two pushes. *)
Lemma queue_drains_oldest_first_witness :
  let ops := [Push (bstr "A"); Push (bstr "B"); Pop] in
  let d0 := snd (queue_run [Push (bstr "A"); Push (bstr "B")] Sample.fresh) in
  let out := fst (queue_run ops Sample.fresh) in
  let d' := snd (queue_run ops Sample.fresh) in
  let history := rev Sample.fresh.(message_queue) ++ pushed ops in
  d0.(message_queue) = [bstr "B"] ++ [bstr "A"] /\
  never_drains_empty ops (List.length Sample.fresh.(message_queue)) = true /\
  pop_message d0 = Returned (Some (bstr "A")) (set_message_queue [bstr "B"] d0) /\
  pop_message (set_message_queue [] d0)
  = Returned None (set_message_queue [] d0) /\
  List.length out = pops ops /\
  out = firstn (pops ops) history /\
  rev d'.(message_queue) = skipn (pops ops) history /\
  List.length d'.(message_queue)
  = (List.length Sample.fresh.(message_queue) + List.length (pushed ops)
     - pops ops)%nat.
Proof.
  cbv zeta.
  assert (H1 : (snd (queue_run [Push (bstr "A"); Push (bstr "B")] Sample.fresh)).(message_queue)
               = [bstr "B"] ++ [bstr "A"]) by (vm_compute; reflexivity).
  assert (H2 : never_drains_empty [Push (bstr "A"); Push (bstr "B"); Pop]
                 (List.length Sample.fresh.(message_queue)) = true)
    by (vm_compute; reflexivity).
  split; [exact H1|]. split; [exact H2|].
  exact (queue_drains_oldest_first
           [Push (bstr "A"); Push (bstr "B"); Pop] Sample.fresh
           (snd (queue_run [Push (bstr "A"); Push (bstr "B")] Sample.fresh))
           [bstr "B"] (bstr "A") H1 H2).
Defined.

(** C1 as stated fails: after pushing A and then B on the empty queue, the
    drain returns A although B is the most recently pushed message. *)
Lemma drain_after_two_pushes_returns_the_first :
  fst (queue_run [Push (bstr "A"); Push (bstr "B"); Pop] Sample.fresh)
  = [bstr "A"] /\
  bstr "A" <> bstr "B".
Proof. split; [reflexivity | discriminate]. Qed.

(* ------------------------------------------------------------------ *)
(** ** Sequencing *)

Lemma bind_returned {A B} (m : M A) (k : A -> M B) d a d' :
  m d = Returned a d' -> bind m k d = k a d'.
Proof. unfold bind. intros ->. reflexivity. Qed.

Lemma bind_raised {A B} (m : M A) (k : A -> M B) d e d' :
  m d = Raised e d' -> bind m k d = Raised e d'.
Proof. unfold bind. intros ->. reflexivity. Qed.

Lemma try_except_returned {A} (m : M A) h d a d' :
  m d = Returned a d' -> try_except m h d = Returned a d'.
Proof. unfold try_except. intros ->. reflexivity. Qed.

Lemma try_except_raised {A} (m : M A) h d e d' :
  m d = Raised e d' -> try_except m h d = h e d'.
Proof. unfold try_except. intros ->. reflexivity. Qed.

(* ------------------------------------------------------------------ *)
(** ** The response dispatcher *)

Section DispatcherFacts.
Context {rt : Runtime}.

(** A tag outside the four registered ones has no callback. *)
Lemma unregistered_tag (t : string) :
  t <> "IdentifyAck" -> t <> "StartRecordingAck" ->
  t <> "StopRecordingAck" -> t <> "CaptureNameAck" ->
  dict_get t command_response_callbacks = None.
Proof.
  intros H1 H2 H3 H4. unfold command_response_callbacks, dict_get.
  apply String.eqb_neq in H1, H2, H3, H4.
  rewrite H1, H2, H3, H4. reflexivity.
Qed.

(** The [except ParseError] branch: one ERROR record, nothing else. *)
Lemma process_message_parse_error now data d :
  fromstring data = ParseError ->
  process_message now data d
  = Returned tt
      (set_log (d.(log) ++ [(ERROR, MsgCouldNotParse data)])
               (set_last_activity now d)).
Proof. intros H. unfold process_message. run_m. rewrite H. reflexivity. Qed.

(** Anything else the decoder raises leaves [process_message]. *)
Lemma process_message_decode_raises now data e d :
  fromstring data = DecodeRaises e ->
  process_message now data d = Raised e (set_last_activity now d).
Proof. intros H. unfold process_message. run_m. rewrite H. reflexivity. Qed.

(** The [else] branch of the dispatch reads [cmd_name], which nothing
    binds: the f-string raises before [LOGGER.error] is called. *)
Lemma process_message_unregistered now data e d :
  fromstring data = Parsed e ->
  dict_get (tag e) command_response_callbacks = None ->
  process_message now data d
  = Raised (NameError "cmd_name") (set_last_activity now d).
Proof.
  intros H Hn. unfold process_message. run_m. rewrite H.
  simpl in Hn. rewrite Hn. reflexivity.
Qed.

(** Whatever the datagram and however the method ends, the timestamp is
    the clock read on entry. *)
Lemma process_message_last_activity now data d :
  (final (process_message now data d)).(last_activity) = now.
Proof.
  unfold process_message. run_m.
  destruct (fromstring data) as [[t a c]| |e]; try reflexivity.
  simpl.
  destruct (String.eqb t "IdentifyAck"); [reflexivity|].
  destruct (String.eqb t "StartRecordingAck"); [reflexivity|].
  destruct (String.eqb t "StopRecordingAck"); [reflexivity|].
  destruct (String.eqb t "CaptureNameAck"); reflexivity.
Qed.

End DispatcherFacts.

(* ------------------------------------------------------------------ *)
(** ** Requests and the inactivity check *)

Section HeartbeatFacts.
Context {rt : Runtime}.

Lemma send_request_to_mvn_queue message_type data d :
  send_request_to_mvn message_type data d
  = Returned tt
      (set_message_queue
         (tostring (fold_left (fun e kv => Element_set (fst kv) (snd kv) e)
                              data (new_Element message_type))
          :: d.(message_queue))
         (set_log (d.(log) ++ [(WARNING, MsgXmlString data)]) d)).
Proof. reflexivity. Qed.

Lemma send_identify_request_waiting d :
  d.(awaiting_echo_response) = true ->
  send_identify_request d = Returned tt d.
Proof. intros H. unfold send_identify_request. run_m. rewrite H. reflexivity. Qed.

Lemma send_identify_request_idle d :
  d.(awaiting_echo_response) = false ->
  send_identify_request d
  = send_request_to_mvn "IdentifyReq" [] (set_awaiting_echo_response true d).
Proof. intros H. unfold send_identify_request. run_m. rewrite H. reflexivity. Qed.

(** The probe touches the flag, the queue and the log only. *)
Lemma send_identify_request_frame d :
  exists d', send_identify_request d = Returned tt d' /\
    d'.(host_calls) = d.(host_calls) /\ d'.(socket) = d.(socket) /\
    d'.(close_socket) = d.(close_socket) /\
    d'.(last_activity) = d.(last_activity) /\
    d'.(sent) = d.(sent).
Proof.
  destruct (awaiting_echo_response d) eqn:E.
  - exists d. rewrite (send_identify_request_waiting d E). repeat split.
  - rewrite (send_identify_request_idle d E), send_request_to_mvn_queue.
    eexists. split; [reflexivity|]. repeat split.
Qed.

Lemma check_activity_quiet now d :
  now - d.(last_activity) <= ping_interval ->
  check_activity now d = Returned tt d.
Proof.
  intros H. unfold check_activity. run_m.
  unfold ping_interval, disconnect_timeout in *.
  destruct (Z.ltb_spec 3000000 (now - last_activity d)); [lia|].
  destruct (Z.ltb_spec 1000000 (now - last_activity d)); [lia|].
  reflexivity.
Qed.

Lemma check_activity_ping now d :
  ping_interval < now - d.(last_activity) <= disconnect_timeout ->
  check_activity now d = send_identify_request d.
Proof.
  intros H. unfold check_activity. run_m.
  unfold ping_interval, disconnect_timeout in *.
  destruct (Z.ltb_spec 3000000 (now - last_activity d)); [lia|].
  destruct (Z.ltb_spec 1000000 (now - last_activity d)); [|lia].
  reflexivity.
Qed.

Lemma check_activity_timeout now d :
  disconnect_timeout < now - d.(last_activity) ->
  check_activity now d = Raised (Exception "Connection timeout") d.
Proof.
  intros H. unfold check_activity. run_m.
  unfold disconnect_timeout in *.
  destruct (Z.ltb_spec 3000000 (now - last_activity d)); [|lia].
  reflexivity.
Qed.

(** Within the disconnect timeout the check returns, and changes at most
    the flag, the queue and the log. *)
Lemma check_activity_alive now d :
  now - d.(last_activity) <= disconnect_timeout ->
  exists d', check_activity now d = Returned tt d' /\
    d'.(host_calls) = d.(host_calls) /\ d'.(socket) = d.(socket) /\
    d'.(close_socket) = d.(close_socket) /\
    d'.(last_activity) = d.(last_activity) /\
    d'.(sent) = d.(sent).
Proof.
  intros H. destruct (Z_le_gt_dec (now - last_activity d) ping_interval).
  - exists d. rewrite check_activity_quiet by assumption. repeat split.
  - rewrite check_activity_ping by lia. apply send_identify_request_frame.
Qed.

Lemma close_if_requested_not_requested ok d :
  d.(close_socket) = false ->
  close_if_requested ok d = Returned Continue d.
Proof. intros H. unfold close_if_requested. run_m. rewrite H. reflexivity. Qed.

(** A pass that pops a message and reads a datagram on which the decoder
    signals [ParseError]: the handler of the pass is not entered and the
    loop goes on, provided no shutdown is requested and the clock of the
    inactivity check is within the timeout of the receive. *)
Lemma pass_with_undecodable_reply tk d h q m data t :
  d.(socket) = Some h ->
  d.(message_queue) = q ++ [m] ->
  d.(close_socket) = false ->
  tk.(net) = NetReply data t ->
  fromstring data = ParseError ->
  tk.(t_check) - t <= disconnect_timeout ->
  exists d', mvn_connection_pass tk d = Returned Continue d' /\
    d'.(host_calls) = d.(host_calls) /\
    d'.(socket) = Some h /\
    d'.(last_activity) = t /\
    d'.(sent) = d.(sent) ++ [m].
Proof.
  intros Hs Hq Hc Hn Hp Ht.
  unfold mvn_connection_pass.
  rewrite (bind_returned _ _ d true d)
    by (unfold get, is_connected; rewrite Hs; reflexivity).
  destruct (pop_message_cases d) as [[Hq' _]|(m' & q' & Hq' & Hpop)].
  { rewrite Hq in Hq'. destruct q; discriminate. }
  rewrite Hq in Hq'. apply app_inj_tail in Hq' as [<- <-].
  set (d1 := set_message_queue q d) in *.
  set (d2 := set_log (d1.(log) ++ [(ERROR, MsgCouldNotParse data)])
               (set_last_activity t (set_sent (d1.(sent) ++ [m]) d1))).
  assert (Hex : exchange m tk.(net) d1 = Returned tt d2).
  { rewrite Hn. unfold exchange.
    rewrite (bind_returned _ _ d1 tt (set_sent (d1.(sent) ++ [m]) d1))
      by reflexivity.
    rewrite process_message_parse_error by assumption. reflexivity. }
  destruct (check_activity_alive tk.(t_check) d2) as (d3 & Hchk & F1 & F2 & F3 & F4 & F5).
  { exact Ht. }
  exists d3. split.
  - apply try_except_returned. unfold mvn_connection_try.
    rewrite (bind_returned _ _ _ _ _ Hpop).
    rewrite (bind_returned _ _ _ _ _ Hex).
    rewrite (bind_returned _ _ _ _ _ Hchk).
    apply close_if_requested_not_requested. rewrite F3. exact Hc.
  - rewrite F1, F2, F4, F5. repeat split. exact Hs.
Qed.

End HeartbeatFacts.

(* ------------------------------------------------------------------ *)
(** ** Datagrams the dispatcher does not understand *)

Section UnknownDatagrams.
Context {rt : Runtime}.

(** A pass whose reply makes [process_message] raise ends in the handler
    of the pass: one WARNING record, the disconnection signal, and the
    loop is left. The socket stays as it was. *)
Lemma pass_with_raising_reply tk d h q m data t e :
  d.(socket) = Some h ->
  d.(message_queue) = q ++ [m] ->
  tk.(net) = NetReply data t ->
  (forall d0, process_message t data d0 = Raised e (set_last_activity t d0)) ->
  exists d', mvn_connection_pass tk d = Returned Break d' /\
    d'.(host_calls) = d.(host_calls) ++ [signal_device_client_disconnected] /\
    d'.(log) = d.(log) ++ [(WARNING, MsgDisconnecting d.(name) e)] /\
    d'.(socket) = Some h.
Proof.
  intros Hs Hq Hn Hr.
  unfold mvn_connection_pass.
  rewrite (bind_returned _ _ d true d)
    by (unfold get, is_connected; rewrite Hs; reflexivity).
  destruct (pop_message_cases d) as [[Hq' _]|(m' & q' & Hq' & Hpop)].
  { rewrite Hq in Hq'. destruct q; discriminate. }
  rewrite Hq in Hq'. apply app_inj_tail in Hq' as [<- <-].
  set (d1 := set_message_queue q d) in *.
  set (d2 := set_last_activity t (set_sent (d1.(sent) ++ [m]) d1)).
  assert (Hex : exchange m tk.(net) d1 = Raised e d2).
  { rewrite Hn. unfold exchange.
    rewrite (bind_returned _ _ d1 tt (set_sent (d1.(sent) ++ [m]) d1))
      by reflexivity.
    apply Hr. }
  assert (Htry : mvn_connection_try tk d = Raised e d2).
  { unfold mvn_connection_try.
    rewrite (bind_returned _ _ _ _ _ Hpop). cbv beta iota.
    apply bind_raised. exact Hex. }
  rewrite (try_except_raised _ _ _ _ _ Htry).
  unfold mvn_connection_except. run_m.
  eexists. split; [reflexivity|]. simpl. rewrite Hs. repeat split.
Qed.

(** For every datagram that decodes to an element with an unregistered
    tag, the pass that reads it ends the session with [NameError]. *)
Lemma pass_with_unregistered_tag tk d h q m data t e :
  d.(socket) = Some h ->
  d.(message_queue) = q ++ [m] ->
  tk.(net) = NetReply data t ->
  fromstring data = Parsed e ->
  dict_get (tag e) command_response_callbacks = None ->
  exists d', mvn_connection_pass tk d = Returned Break d' /\
    d'.(host_calls) = d.(host_calls) ++ [signal_device_client_disconnected] /\
    d'.(log) = d.(log) ++ [(WARNING, MsgDisconnecting d.(name) (NameError "cmd_name"))] /\
    d'.(socket) = Some h.
Proof.
  intros Hs Hq Hn Hp Hu.
  apply (pass_with_raising_reply tk d h q m data t _ Hs Hq Hn).
  intros d0. apply (process_message_unregistered t data e d0 Hp Hu).
Qed.

End UnknownDatagrams.

(** C2 (the code departs from it). The datagram [<Foo/>] decodes to an
    element whose tag has no callback. [process_message] then raises
    [NameError] for [cmd_name] while building the log text, so no record
    about the tag is written; in the session loop the exception reaches the
    handler of the pass, which logs the disconnection, signals it to the
    host and leaves the loop. *)
Theorem unregistered_tag_raises_and_ends_the_session :
  let data := bstr "<Foo/>" in
  let tk := mkTick (NetReply data 10) 20 true in
  fromstring (Runtime := Sample.runtime) data = Parsed (Elem "Foo" [] []) /\
  process_message (rt := Sample.runtime) 10 data Sample.connected
  = Raised (NameError "cmd_name") (set_last_activity 10 Sample.connected) /\
  exists d',
    mvn_connection_pass (rt := Sample.runtime) tk Sample.connected
    = Returned Break d' /\
    d'.(host_calls) = [signal_device_client_disconnected] /\
    d'.(log) = Sample.connected.(log)
               ++ [(WARNING, MsgDisconnecting "MVN" (NameError "cmd_name"))].
Proof.
  cbv zeta. split; [vm_compute; reflexivity|].
  split; [vm_compute; reflexivity|].
  eexists. split; [vm_compute; reflexivity|].
  split; vm_compute; reflexivity.
Qed.

(** C3 (amended to the exception the method catches). When the decoder
    signals [ParseError] on a datagram, [process_message] returns: it sets
    the timestamp, writes one ERROR record and changes nothing else. A pass
    of the session loop that reads such a datagram does not enter its
    handler and the loop goes on, as long as no shutdown is requested and
    the inactivity check reads the clock within the timeout. *)
Theorem parse_error_datagram_is_dropped
    {rt : Runtime} (tk : Tick) (d : Device) (h : Socket)
    (q : list bytes) (m data : bytes) (t : Time) :
  fromstring data = ParseError ->
  d.(socket) = Some h ->
  d.(message_queue) = q ++ [m] ->
  d.(close_socket) = false ->
  tk.(net) = NetReply data t ->
  tk.(t_check) - t <= disconnect_timeout ->
  (forall now d0,
     process_message now data d0
     = Returned tt
         (set_log (d0.(log) ++ [(ERROR, MsgCouldNotParse data)])
                  (set_last_activity now d0))) /\
  exists d',
    mvn_connection_pass tk d = Returned Continue d' /\
    d'.(host_calls) = d.(host_calls) /\
    d'.(socket) = Some h.
Proof.
  intros Hp Hs Hq Hc Hn Ht. split.
  - intros now d0. apply process_message_parse_error. exact Hp.
  - destruct (pass_with_undecodable_reply tk d h q m data t Hs Hq Hc Hn Hp Ht)
      as (d' & H1 & H2 & H3 & _).
    exists d'. repeat split; assumption.
Qed.

(** The theorem on the connected sample device reading the bytes
    [garbage] at clock 10. *)
Lemma parse_error_datagram_is_dropped_witness :
  let data := bstr "garbage" in
  let tk := mkTick (NetReply data 10) 20 true in
  fromstring (Runtime := Sample.runtime) data = ParseError /\
  (forall now d0,
     process_message (rt := Sample.runtime) now data d0
     = Returned tt
         (set_log (d0.(log) ++ [(ERROR, MsgCouldNotParse data)])
                  (set_last_activity now d0))) /\
  exists d',
    mvn_connection_pass (rt := Sample.runtime) tk Sample.connected
    = Returned Continue d' /\
    d'.(host_calls) = Sample.connected.(host_calls) /\
    d'.(socket) = Some 7%nat.
Proof.
  cbv zeta. split; [vm_compute; reflexivity|].
  apply (parse_error_datagram_is_dropped (rt := Sample.runtime)
           (mkTick (NetReply (bstr "garbage") 10) 20 true) Sample.connected
           7%nat [] (bstr "<IdentifyReq />") (bstr "garbage") 10).
  - vm_compute; reflexivity.
  - vm_compute; reflexivity.
  - vm_compute; reflexivity.
  - vm_compute; reflexivity.
  - vm_compute; reflexivity.
  - vm_compute. discriminate.
Defined.

(** C3 as stated fails: the truncated datagram below makes the decoder
    raise [LookupError], which [except ParseError] does not catch;
    [process_message] raises and the pass that read the datagram signals
    the disconnection and leaves the loop. *)
Lemma undecodable_datagram_ends_the_session :
  let data := bstr "<?xml version='1.0' encoding='foo'?><a" in
  let tk := mkTick (NetReply data 10) 20 true in
  process_message (rt := Sample.runtime) 10 data Sample.connected
  = Raised (LookupError "unknown encoding: foo")
           (set_last_activity 10 Sample.connected) /\
  exists d',
    mvn_connection_pass (rt := Sample.runtime) tk Sample.connected
    = Returned Break d' /\
    d'.(host_calls) = [signal_device_client_disconnected].
Proof.
  cbv zeta. split; [vm_compute; reflexivity|].
  eexists. split; vm_compute; reflexivity.
Qed.

(* ------------------------------------------------------------------ *)
(** ** The identify probe *)

(** C6. When the inactivity check runs with the elapsed time above the ping
    interval and not above the disconnect timeout, it returns with the
    awaiting flag set and has put exactly one [IdentifyReq] into the queue
    if the flag was clear, and none if it was set. From then on
    [send_identify_request], and the check itself within the timeout, leave
    the device as it is. In any device whose flag is set,
    [send_identify_request] changes nothing. *)
Theorem identify_probe_single_outstanding
    {rt : Runtime} (d d0 : Device) (now : Time) :
  ping_interval < now - d.(last_activity) <= disconnect_timeout ->
  d0.(awaiting_echo_response) = true ->
  send_identify_request d0 = Returned tt d0 /\
  exists d',
    check_activity now d = Returned tt d' /\
    d'.(awaiting_echo_response) = true /\
    d'.(message_queue)
    = (if d.(awaiting_echo_response) then []
       else [tostring (new_Element "IdentifyReq")]) ++ d.(message_queue) /\
    send_identify_request d' = Returned tt d' /\
    forall now', now' - d.(last_activity) <= disconnect_timeout ->
                 check_activity now' d' = Returned tt d'.
Proof.
  intros Hw H0. split; [apply send_identify_request_waiting; exact H0|].
  rewrite check_activity_ping by exact Hw.
  assert (Hagain : forall d', d'.(awaiting_echo_response) = true ->
            d'.(last_activity) = d.(last_activity) ->
            forall now', now' - d.(last_activity) <= disconnect_timeout ->
                         check_activity now' d' = Returned tt d').
  { intros d' Ha Hl now' Hn.
    destruct (Z_le_gt_dec (now' - last_activity d') ping_interval).
    - apply check_activity_quiet. assumption.
    - rewrite check_activity_ping by (rewrite Hl; lia).
      apply send_identify_request_waiting. exact Ha. }
  destruct (awaiting_echo_response d) eqn:E.
  - exists d. rewrite (send_identify_request_waiting d E).
    repeat split; auto.
  - rewrite (send_identify_request_idle d E), send_request_to_mvn_queue.
    eexists. split; [reflexivity|]. simpl.
    repeat split; auto.
Qed.

(** The theorem on the fresh sample device checked at 2.0 s, and on the
    connected one, whose flag is set. *)
Lemma identify_probe_single_outstanding_witness :
  (ping_interval < 2000000 - Sample.fresh.(last_activity) <= disconnect_timeout) /\
  Sample.connected.(awaiting_echo_response) = true /\
  send_identify_request (rt := Sample.runtime) Sample.connected
  = Returned tt Sample.connected /\
  exists d',
    check_activity (rt := Sample.runtime) 2000000 Sample.fresh = Returned tt d' /\
    d'.(awaiting_echo_response) = true /\
    d'.(message_queue)
    = (if Sample.fresh.(awaiting_echo_response) then []
       else [tostring (Runtime := Sample.runtime) (new_Element "IdentifyReq")])
      ++ Sample.fresh.(message_queue) /\
    send_identify_request (rt := Sample.runtime) d' = Returned tt d' /\
    forall now', now' - Sample.fresh.(last_activity) <= disconnect_timeout ->
                 check_activity (rt := Sample.runtime) now' d' = Returned tt d'.
Proof.
  split; [vm_compute; split; [reflexivity | discriminate]|].
  split; [vm_compute; reflexivity|].
  apply (identify_probe_single_outstanding (rt := Sample.runtime)
           Sample.fresh Sample.connected 2000000).
  - vm_compute. split; [reflexivity | discriminate].
  - vm_compute. reflexivity.
Defined.

(* ------------------------------------------------------------------ *)
(** ** set_take *)

(** C4 (the code departs from it). For every take name and number,
    [set_take] stores the two values and then raises [NameError] on
    [state_elem] at line 223: no [CaptureName] message is built to the end
    and nothing reaches the queue. *)
Theorem set_take_raises_before_enqueueing
    {rt : Runtime} (take_name : string) (take_num : Z) (d : Device) :
  set_take take_name take_num d
  = Raised (NameError "state_elem") (set__take take_num (set__slate take_name d)) /\
  (final (set_take take_name take_num d)).(message_queue) = d.(message_queue).
Proof. split; reflexivity. Qed.

(* ------------------------------------------------------------------ *)
(** ** connect_listener *)

(** C5 (amended to the method without a guard). Whether or not a socket is
    already held, [connect_listener] on a socket the system has bound
    clears the shutdown request, stores the new socket as the handle
    without closing an earlier one, sets the timestamp to the clock,
    starts a further session-loop thread and leaves the awaiting flag set
    with one more [IdentifyReq] in the queue. *)
Theorem connect_listener_opens_a_session_unconditionally
    {rt : Runtime} (d : Device) (h : Socket) (now : Time) :
  exists d',
    connect_listener (Bound h) now d = Returned tt d' /\
    d'.(socket) = Some h /\
    d'.(close_socket) = false /\
    d'.(last_activity) = now /\
    d'.(open_sockets) = d.(open_sockets) ++ [h] /\
    d'.(mvn_connection_thread) = Some d.(threads_started) /\
    d'.(running_loops) = d.(running_loops) ++ [d.(threads_started)] /\
    d'.(awaiting_echo_response) = true /\
    d'.(message_queue)
    = tostring (new_Element "IdentifyReq") :: d.(message_queue).
Proof. eexists. split; [reflexivity|]. repeat split. Qed.

(** C5 as stated fails: the device below holds socket 7 with one session
    loop running; a second [connect_listener] replaces the handle by socket
    8 while 7 stays open, starts a second loop and queues a second
    [IdentifyReq]. *)
Lemma connect_listener_when_connected_is_not_a_no_op :
  let d := Sample.connected in
  let d' := final (connect_listener (rt := Sample.runtime) (Bound 8%nat) 5 d) in
  is_connected d = true /\
  d.(socket) = Some 7%nat /\ d'.(socket) = Some 8%nat /\
  d.(open_sockets) = [7%nat] /\ d'.(open_sockets) = [7%nat; 8%nat] /\
  d.(running_loops) = [0%nat] /\ d'.(running_loops) = [0%nat; 1%nat] /\
  d.(message_queue) = [bstr "<IdentifyReq />"] /\
  d'.(message_queue) = [bstr "<IdentifyReq />"; bstr "<IdentifyReq />"] /\
  d' <> d.
Proof.
  cbv zeta. repeat (split; [vm_compute; reflexivity|]).
  intros H. apply (f_equal socket) in H. vm_compute in H. discriminate H.
Qed.

(* ------------------------------------------------------------------ *)
(** ** is_connected *)

Section ConnectionFacts.
Context {rt : Runtime}.

(** The handler of a pass leaves the socket alone: after a pass that ends
    on the inactivity timeout the host has been signalled, the loop is
    left, and the handle is still held. *)
Lemma timeout_exit_keeps_the_socket tk d h :
  d.(socket) = Some h ->
  d.(message_queue) = [] ->
  disconnect_timeout < tk.(t_check) - d.(last_activity) ->
  exists d', mvn_connection_pass tk d = Returned Break d' /\
    d'.(host_calls) = d.(host_calls) ++ [signal_device_client_disconnected] /\
    d'.(socket) = Some h /\
    is_connected d' = true.
Proof.
  intros Hs Hq Ht. unfold mvn_connection_pass.
  rewrite (bind_returned _ _ d true d)
    by (unfold get, is_connected; rewrite Hs; reflexivity).
  assert (Htry : mvn_connection_try tk d
                 = Raised (Exception "Connection timeout") d).
  { unfold mvn_connection_try.
    destruct (pop_message_cases d) as [[_ Hp]|(m & q & Hq' & _)].
    - rewrite (bind_returned _ _ _ _ _ Hp). cbv beta iota.
      rewrite (bind_returned _ _ d tt d) by reflexivity.
      apply bind_raised. apply check_activity_timeout. exact Ht.
    - rewrite Hq in Hq'. destruct q; discriminate. }
  rewrite (try_except_raised _ _ _ _ _ Htry).
  unfold mvn_connection_except. run_m.
  eexists. split; [reflexivity|]. unfold is_connected. simpl.
  rewrite Hs. repeat split.
Qed.

End ConnectionFacts.

(** C7 (the code departs from it). The sample device has received its
    [IdentifyAck] at clock 10 and holds socket 7. When its session loop
    reads the clock 3.2 s later with nothing received, the pass signals the
    disconnection to the host and the thread ends, but the handler does not
    touch [self.socket]: the handle is still held and [is_connected] is
    still true on a device the host has been told is disconnected. The
    shutdown branch of the same loop (lines 167-171), taken on the same
    device once a shutdown is requested, does drop the handle. *)
Theorem timed_out_session_still_holds_the_socket :
  let d := Sample.ready in
  let failed :=
    step (rt := Sample.runtime) (Loop 0%nat (mkTick NetSilent 3200000 true)) d in
  let closed :=
    step (rt := Sample.runtime) (Loop 0%nat (mkTick NetSilent 20 true))
         (set_close_socket true d) in
  (d.(socket) = Some 7%nat /\ is_connected d = true /\
   d.(running_loops) = [0%nat] /\ d.(host_calls) = []) /\
  (failed.(host_calls) = [signal_device_client_disconnected] /\
   failed.(running_loops) = [] /\
   failed.(socket) = Some 7%nat /\ is_connected failed = true /\
   failed.(open_sockets) = [7%nat]) /\
  (closed.(host_calls) = [] /\
   closed.(running_loops) = [] /\
   closed.(socket) = None /\ is_connected closed = false /\
   closed.(open_sockets) = []).
Proof. cbv zeta. repeat split; vm_compute; reflexivity. Qed.

(* ------------------------------------------------------------------ *)
(** ** Recording requests and confirmations *)

(** C8. [timecode] is the constant ["00:00:00:00"] for every device, and
    both confirmation callbacks hand exactly that string to the host:
    [record_start_confirm] gets it alone, [record_stop_confirm] gets it
    with no paths. Nothing else changes. *)
Theorem confirmations_carry_the_constant_timecode
    {rt : Runtime} (response : Element) (d : Device) :
  timecode d = "00:00:00:00" /\
  on_mvn_recording_started response d
  = Returned tt
      (set_host_calls (d.(host_calls) ++ [record_start_confirm "00:00:00:00"]) d) /\
  on_mvn_recording_stopped response d
  = Returned tt
      (set_host_calls
         (d.(host_calls) ++ [record_stop_confirm "00:00:00:00" None]) d).
Proof. repeat split. Qed.

(** C9. [record_start] does not look at its [take] argument: two calls
    that agree on slate and description end in the same outcome and the
    same device. When the device is not disconnected and the start trigger
    is on, the one message added to the queue is the serialized
    [StartRecordingReq] whose attributes are SessionName and Description
    and nothing else; otherwise the queue is unchanged. *)
Theorem record_start_ignores_take
    {rt : Runtime} (slate : string) (take1 take2 : Z) (description : string)
    (d : Device) :
  record_start slate take1 description d
  = record_start slate take2 description d /\
  (final (record_start slate take1 description d)).(message_queue)
  = if (is_disconnected d || negb d.(trigger_start))%bool
    then d.(message_queue)
    else tostring (Elem "StartRecordingReq"
                        [("SessionName", slate); ("Description", description)] [])
         :: d.(message_queue).
Proof.
  split; [reflexivity|].
  unfold record_start. run_m.
  change (is_disconnected (set_log (log d ++ [(WARNING, MsgStartingRecording)]) d))
    with (is_disconnected d).
  destruct (is_disconnected d || negb (trigger_start d))%bool; reflexivity.
Qed.


(* ================================================================== *)
(** * Further properties of the connection engine *)

Ltac frame_solve :=
  solve [ unfold same_connection, signals_emitted; simpl;
          rewrite ?filter_app, ?List.length_app; simpl;
          repeat split; try reflexivity; try lia ].

Section PassFacts.
Context {rt : Runtime}.

Lemma same_connection_refl d : same_connection d d.
Proof. repeat split. Qed.

Lemma same_connection_trans d1 d2 d3 :
  same_connection d1 d2 -> same_connection d2 d3 -> same_connection d1 d3.
Proof.
  intros (A1 & A2 & A3 & A4) (B1 & B2 & B3 & B4).
  repeat split; congruence.
Qed.

Lemma process_message_same_connection now data d :
  same_connection d (final (process_message now data d)).
Proof.
  unfold process_message. run_m.
  destruct (fromstring data) as [[t a c]| |e]; try frame_solve.
  simpl.
  destruct (String.eqb t "IdentifyAck"); [frame_solve|].
  destruct (String.eqb t "StartRecordingAck"); [frame_solve|].
  destruct (String.eqb t "StopRecordingAck"); [frame_solve|].
  destruct (String.eqb t "CaptureNameAck"); frame_solve.
Qed.

Lemma exchange_same_connection m n d :
  same_connection d (final (exchange m n d)).
Proof.
  destruct n as [| | |data t]; try (unfold exchange; run_m; frame_solve).
  unfold exchange.
  rewrite (bind_returned _ _ d tt (set_sent (d.(sent) ++ [m]) d)) by reflexivity.
  apply (same_connection_trans _ (set_sent (d.(sent) ++ [m]) d)).
  - frame_solve.
  - apply process_message_same_connection.
Qed.

Lemma send_identify_request_same_connection d :
  exists d', send_identify_request d = Returned tt d' /\ same_connection d d'.
Proof.
  destruct (awaiting_echo_response d) eqn:E.
  - exists d. rewrite (send_identify_request_waiting d E).
    split; [reflexivity | apply same_connection_refl].
  - rewrite (send_identify_request_idle d E), send_request_to_mvn_queue.
    eexists. split; [reflexivity|]. frame_solve.
Qed.

(** The inactivity check either raises the timeout on an untouched device
    or returns. *)
Lemma check_activity_cases now d :
  (disconnect_timeout < now - d.(last_activity) /\
   check_activity now d = Raised (Exception "Connection timeout") d) \/
  (now - d.(last_activity) <= disconnect_timeout /\
   exists d', check_activity now d = Returned tt d' /\ same_connection d d').
Proof.
  destruct (Z_le_gt_dec (now - last_activity d) disconnect_timeout) as [Hle|Hgt].
  - right. split; [exact Hle|].
    destruct (Z_le_gt_dec (now - last_activity d) ping_interval).
    + exists d. rewrite check_activity_quiet by assumption.
      split; [reflexivity | apply same_connection_refl].
    + rewrite check_activity_ping by lia.
      apply send_identify_request_same_connection.
  - left. split; [lia|]. apply check_activity_timeout. lia.
Qed.

(** The three ends of the shutdown test. *)
Lemma close_if_requested_cases ok d :
  (close_if_requested ok d = Returned Continue d) \/
  (d.(close_socket) = true /\ d.(message_queue) = [] /\
   exists d', close_if_requested ok d = Returned Break d' /\
     d'.(socket) = None /\ d'.(close_socket) = true /\
     d'.(message_queue) = [] /\ d'.(host_calls) = d.(host_calls) /\
     d'.(sent) = d.(sent) /\
     (forall h, d.(socket) = Some h -> ~ In h d'.(open_sockets))) \/
  (close_if_requested ok d = Raised OSError d).
Proof.
  unfold close_if_requested. run_m.
  destruct (close_socket d) eqn:Hc; [|left; reflexivity].
  destruct (message_queue d) as [|m q] eqn:Hq; [|left; reflexivity].
  simpl. destruct ok; [|right; right; reflexivity].
  right; left. split; [reflexivity|]. split; [reflexivity|].
  eexists. split; [reflexivity|].
  destruct (socket d) as [h0|] eqn:Hs; simpl; rewrite ?Hc, ?Hq;
    repeat split.
  - intros h [= <-] Hin. apply filter_In in Hin as [_ Hne].
    rewrite Nat.eqb_refl in Hne. discriminate.
  - intros h [=].
Qed.

(** The [try] block of a pass: it goes on or raises with the connection
    untouched, or it leaves after the clean shutdown. *)
Lemma mvn_connection_try_cases tk d :
  match mvn_connection_try tk d with
  | Returned Continue d' => same_connection d d'
  | Returned Break d' =>
      d'.(socket) = None /\ d'.(close_socket) = true /\
      d'.(message_queue) = [] /\
      signals_emitted d' = signals_emitted d /\
      (forall h, d.(socket) = Some h -> ~ In h d'.(open_sockets))
  | Raised e d' => same_connection d d'
  end.
Proof.
  unfold mvn_connection_try.
  assert (Hpop : exists om d1, pop_message d = Returned om d1 /\ same_connection d d1).
  { destruct (pop_message_cases d) as [[_ Hp]|(m & q & _ & Hp)]; rewrite Hp.
    - exists None, d. split; [reflexivity | apply same_connection_refl].
    - eexists _, _. split; [reflexivity | frame_solve]. }
  destruct Hpop as (om & d1 & Hp & F1).
  rewrite (bind_returned _ _ _ _ _ Hp). cbv beta.
  set (ex := match om with
             | Some message_str => exchange message_str (net tk)
             | None => ret tt
             end).
  assert (F2 : same_connection d1 (final (ex d1))).
  { subst ex. destruct om; [apply exchange_same_connection|apply same_connection_refl]. }
  unfold bind at 1. destruct (ex d1) as [[] d2|e d2]; simpl in F2.
  2:{ eapply same_connection_trans; eassumption. }
  assert (F12 : same_connection d d2) by (eapply same_connection_trans; eassumption).
  destruct (check_activity_cases (t_check tk) d2) as [[_ Hc]|[_ (d3 & Hc & F3)]].
  { rewrite (bind_raised _ _ _ _ _ Hc). exact F12. }
  rewrite (bind_returned _ _ _ _ _ Hc).
  assert (F13 : same_connection d d3) by (eapply same_connection_trans; eassumption).
  destruct (close_if_requested_cases (shutdown_ok tk) d3)
    as [Hk|[(Hcs & Hq & d4 & Hk & S1 & S2 & S3 & S4 & S5 & S6)|Hk]]; rewrite Hk.
  - exact F13.
  - repeat split; try assumption.
    + unfold signals_emitted. rewrite S4.
      destruct F13 as (_ & _ & _ & Hsig). exact Hsig.
    + intros h Hs. apply S6. destruct F13 as (Hsock & _). congruence.
  - exact F13.
Qed.

End PassFacts.

(** The ways a pass can end. *)
Lemma pass_outcomes
    {rt : Runtime} (tk : Tick) (d : Device) :
  exists c d',
    mvn_connection_pass tk d = Returned c d' /\
    match c with
    | Continue =>
        d.(socket) <> None /\
        d'.(socket) = d.(socket) /\
        signals_emitted d' = signals_emitted d
    | Break =>
        (d.(socket) = None /\ d' = d) \/
        (d.(socket) <> None /\ d'.(socket) = None /\
         d'.(close_socket) = true /\ d'.(message_queue) = [] /\
         signals_emitted d' = signals_emitted d /\
         forall h, d.(socket) = Some h -> ~ In h d'.(open_sockets)) \/
        (d.(socket) <> None /\ d'.(socket) = d.(socket) /\
         signals_emitted d' = S (signals_emitted d))
    end.
Proof.
  unfold mvn_connection_pass.
  destruct (socket d) as [h|] eqn:Hs.
  2:{ exists Break, d.
      rewrite (bind_returned _ _ d false d)
        by (unfold get, is_connected; rewrite Hs; reflexivity).
      split; [reflexivity|]. left. split; reflexivity. }
  rewrite (bind_returned _ _ d true d)
    by (unfold get, is_connected; rewrite Hs; reflexivity).
  pose proof (mvn_connection_try_cases tk d) as H.
  unfold try_except.
  destruct (mvn_connection_try tk d) as [[|] d'|e d'].
  - exists Continue, d'. split; [reflexivity|].
    destruct H as (H1 & _ & _ & H4).
    split; [discriminate|]. split; [congruence | exact H4].
  - exists Break, d'. split; [reflexivity|].
    destruct H as (H1 & H2 & H3 & H4 & H5).
    right; left. split; [discriminate|].
    repeat (split; [assumption|]).
    intros h0 [= <-]. apply H5. exact Hs.
  - unfold mvn_connection_except. run_m.
    eexists Break, _. split; [reflexivity|].
    destruct H as (H1 & _ & _ & H4).
    right; right. split; [discriminate|]. split.
    + simpl. congruence.
    + unfold signals_emitted in *. simpl.
      rewrite filter_app, List.length_app, H4. simpl. lia.
Qed.

(** X1. A pass of the session loop never raises. When the loop goes on,
    the socket was held and neither the socket nor the number of
    disconnection signals has changed. When the loop is left, either no
    socket was held and nothing happened, or the socket was shut down on
    request (handle dropped, socket no longer open, queue empty, no
    signal), or the pass failed (handle still held, exactly one more
    signal). *)
Theorem pass_returns_and_signals_at_most_once
    {rt : Runtime} (tk : Tick) (d : Device) :
  exists c d',
    mvn_connection_pass tk d = Returned c d' /\
    match c with
    | Continue =>
        d.(socket) <> None /\
        d'.(socket) = d.(socket) /\
        signals_emitted d' = signals_emitted d
    | Break =>
        (d.(socket) = None /\ d' = d) \/
        (d.(socket) <> None /\ d'.(socket) = None /\
         d'.(close_socket) = true /\ d'.(message_queue) = [] /\
         signals_emitted d' = signals_emitted d /\
         forall h, d.(socket) = Some h -> ~ In h d'.(open_sockets)) \/
        (d.(socket) <> None /\ d'.(socket) = d.(socket) /\
         signals_emitted d' = S (signals_emitted d))
    end.
Proof. apply pass_outcomes. Qed.

(** X2. [process_message] raises exactly when the decoder raises something
    other than [ParseError], or the datagram decodes to an element whose
    tag is none of the four registered ones. *)
Theorem process_message_raises_exactly
    {rt : Runtime} (now : Time) (data : bytes) (d : Device) :
  raises (process_message now data d)
  = match fromstring data with
    | ParseError => false
    | DecodeRaises _ => true
    | Parsed e => negb (existsb (String.eqb (tag e)) registered_tags)
    end.
Proof.
  unfold process_message. run_m.
  destruct (fromstring data) as [[t a c]| |e]; try reflexivity.
  simpl.
  destruct (String.eqb t "IdentifyAck"); [reflexivity|].
  destruct (String.eqb t "StartRecordingAck"); [reflexivity|].
  destruct (String.eqb t "StopRecordingAck"); [reflexivity|].
  destruct (String.eqb t "CaptureNameAck"); reflexivity.
Qed.

(** X3. Of all datagrams only one that decodes to [IdentifyAck] clears the
    awaiting flag and sets the status to READY; every other datagram,
    decodable or not, leaves both as they were. No datagram changes the
    outbound queue. *)
Theorem only_identify_ack_clears_the_awaiting_flag
    {rt : Runtime} (now : Time) (data : bytes) (d : Device) :
  let d' := final (process_message now data d) in
  let is_ack :=
    match fromstring data with
    | Parsed e => String.eqb (tag e) "IdentifyAck"
    | _ => false
    end in
  d'.(awaiting_echo_response)
  = (if is_ack then false else d.(awaiting_echo_response)) /\
  d'.(status) = (if is_ack then READY else d.(status)) /\
  d'.(message_queue) = d.(message_queue).
Proof.
  cbv zeta. unfold process_message. run_m.
  destruct (fromstring data) as [[t a c]| |e]; try (repeat split; reflexivity).
  simpl.
  destruct (String.eqb t "IdentifyAck"); [repeat split|].
  destruct (String.eqb t "StartRecordingAck"); [repeat split|].
  destruct (String.eqb t "StopRecordingAck"); [repeat split|].
  destruct (String.eqb t "CaptureNameAck"); repeat split.
Qed.

(** X4. The calls [process_message] makes towards the host: one
    [record_start_confirm] with the constant timecode for a datagram that
    decodes to [StartRecordingAck], one [record_stop_confirm] with the
    constant timecode and no paths for [StopRecordingAck], and none for any
    other datagram. It never emits the disconnection signal itself. *)
Theorem process_message_host_calls
    {rt : Runtime} (now : Time) (data : bytes) (d : Device) :
  (final (process_message now data d)).(host_calls)
  = d.(host_calls) ++
    match fromstring data with
    | Parsed e =>
        if String.eqb (tag e) "StartRecordingAck"
        then [record_start_confirm "00:00:00:00"]
        else if String.eqb (tag e) "StopRecordingAck"
        then [record_stop_confirm "00:00:00:00" None]
        else []
    | _ => []
    end.
Proof.
  unfold process_message. run_m.
  destruct (fromstring data) as [[t a c]| |e];
    try (simpl; rewrite app_nil_r; reflexivity).
  simpl.
  destruct (String.eqb t "IdentifyAck") eqn:E1.
  { apply String.eqb_eq in E1. subst t. simpl. rewrite app_nil_r. reflexivity. }
  destruct (String.eqb t "StartRecordingAck"); [reflexivity|].
  destruct (String.eqb t "StopRecordingAck"); [reflexivity|].
  destruct (String.eqb t "CaptureNameAck"); simpl; rewrite app_nil_r; reflexivity.
Qed.

(* ------------------------------------------------------------------ *)
(** ** Passes without inbound traffic *)

Section SilentPasses.
Context {rt : Runtime}.

Lemma pass_connected tk d h :
  d.(socket) = Some h ->
  mvn_connection_pass tk d
  = try_except (mvn_connection_try tk) mvn_connection_except d.
Proof.
  intros Hs. unfold mvn_connection_pass.
  rewrite (bind_returned _ _ d true d)
    by (unfold get, is_connected; rewrite Hs; reflexivity).
  reflexivity.
Qed.

(** A quiet pass over a non-empty queue sends the rightmost message and
    nothing else; it shuts the socket down when that was the last message
    and a shutdown is requested. *)
Lemma quiet_pass_sends_the_oldest tk d h q m :
  d.(socket) = Some h ->
  d.(message_queue) = q ++ [m] ->
  quiet_tick d.(last_activity) tk ->
  let last := (d.(close_socket) &&
               match q with [] => true | _ => false end)%bool in
  exists d',
    mvn_connection_pass tk d
    = Returned (if last then Break else Continue) d' /\
    d'.(sent) = d.(sent) ++ [m] /\
    d'.(message_queue) = q /\
    d'.(socket) = (if last then None else Some h) /\
    d'.(close_socket) = d.(close_socket) /\
    d'.(last_activity) = d.(last_activity) /\
    d'.(host_calls) = d.(host_calls).
Proof.
  intros Hs Hq (Hn & Ht & Hok). cbv zeta.
  rewrite (pass_connected tk d h Hs).
  destruct (pop_message_cases d) as [[Hq' _]|(m' & q' & Hq' & Hpop)].
  { rewrite Hq in Hq'. destruct q; discriminate. }
  rewrite Hq in Hq'. apply app_inj_tail in Hq' as [<- <-].
  set (d1 := set_sent (d.(sent) ++ [m]) (set_message_queue q d)).
  assert (Hchk : check_activity (t_check tk) d1 = Returned tt d1)
    by (apply check_activity_quiet; exact Ht).
  assert (Htry : mvn_connection_try tk d
                 = close_if_requested (shutdown_ok tk) d1).
  { unfold mvn_connection_try.
    rewrite (bind_returned _ _ _ _ _ Hpop). cbv beta iota.
    rewrite (bind_returned _ _ (set_message_queue q d) tt d1)
      by (rewrite Hn; reflexivity).
    rewrite (bind_returned _ _ _ _ _ Hchk). reflexivity. }
  unfold try_except. rewrite Htry, Hok.
  unfold close_if_requested. run_m.
  destruct (close_socket d) eqn:Hc; simpl.
  - destruct q as [|y q]; simpl.
    + rewrite Hs. eexists. split; [reflexivity|]. simpl.
      rewrite Hc. repeat split.
    + eexists. split; [reflexivity|]. simpl. rewrite Hc. repeat split.
      exact Hs.
  - eexists. split; [reflexivity|]. simpl. rewrite Hc. repeat split.
    exact Hs.
Qed.

End SilentPasses.

Lemma quiet_passes_flush_the_queue
    {rt : Runtime} (ticks : list Tick) (d : Device) (h : Socket) :
  d.(socket) = Some h ->
  d.(message_queue) <> [] ->
  List.length ticks = List.length d.(message_queue) ->
  Forall (quiet_tick d.(last_activity)) ticks ->
  exists d',
    mvn_connection ticks d
    = Returned (if d.(close_socket) then Break else Continue) d' /\
    d'.(sent) = d.(sent) ++ rev d.(message_queue) /\
    d'.(message_queue) = [] /\
    d'.(socket) = (if d.(close_socket) then None else Some h) /\
    d'.(host_calls) = d.(host_calls).
Proof.
  revert d. induction ticks as [|tk rest IH]; intros d Hs Hne Hlen Hq.
  { destruct (message_queue d); [congruence|discriminate]. }
  destruct (@exists_last _ (message_queue d) Hne) as (q & m & Eq).
  inversion Hq as [|? ? Htk Hrest]; subst.
  destruct (quiet_pass_sends_the_oldest tk d h q m Hs Eq Htk)
    as (d1 & Hp & S1 & S2 & S3 & S4 & S5 & S6).
  rewrite Eq, rev_app_distr. simpl.
  rewrite Eq, List.length_app in Hlen. simpl in Hlen.
  destruct q as [|y q].
  - destruct rest; [|simpl in Hlen; lia].
    simpl in Hp, S3. rewrite andb_true_r in Hp, S3.
    unfold mvn_connection. rewrite (bind_returned _ _ _ _ _ Hp).
    exists d1. destruct (close_socket d); repeat split; assumption.
  - simpl in Hp, S3. rewrite andb_false_r in Hp, S3.
    simpl. rewrite (bind_returned _ _ _ _ _ Hp).
    destruct (IH d1) as (d' & Hr & R1 & R2 & R3 & R4).
    + exact S3.
    + rewrite S2. discriminate.
    + rewrite S2. simpl in *. lia.
    + rewrite S5. exact Hrest.
    + exists d'. rewrite S4 in Hr, R3. split; [exact Hr|].
      rewrite R1, S1, S2, R4, S6. simpl.
      rewrite <- !app_assoc. simpl. repeat split; assumption.
Qed.

(* ------------------------------------------------------------------ *)
(** ** The probe is not repeated *)

Section NoSecondProbe.
Context {rt : Runtime}.

Lemma check_activity_while_awaiting now d :
  d.(awaiting_echo_response) = true ->
  check_activity now d = Returned tt d \/
  check_activity now d = Raised (Exception "Connection timeout") d.
Proof.
  intros Ha.
  destruct (Z_le_gt_dec (now - last_activity d) disconnect_timeout).
  - left. destruct (Z_le_gt_dec (now - last_activity d) ping_interval).
    + apply check_activity_quiet. assumption.
    + rewrite check_activity_ping by lia.
      apply send_identify_request_waiting. exact Ha.
  - right. apply check_activity_timeout. lia.
Qed.

Lemma close_if_requested_keeps ok d :
  let d' := final (close_if_requested ok d) in
  d'.(awaiting_echo_response) = d.(awaiting_echo_response) /\
  d'.(message_queue) = d.(message_queue) /\
  d'.(sent) = d.(sent).
Proof.
  cbv zeta. unfold close_if_requested. run_m.
  destruct (close_socket d); [|repeat split].
  destruct (message_queue d) eqn:Hq; simpl; [|rewrite Hq; repeat split].
  destruct ok; simpl; [|rewrite Hq; repeat split].
  destruct (socket d); simpl; rewrite ?Hq; repeat split.
Qed.

(** A silent pass of a device that awaits the echo pops at most one
    message, sends what it popped and puts nothing into the queue. *)
Lemma silent_pass_while_awaiting tk d :
  d.(awaiting_echo_response) = true ->
  tk.(net) = NetSilent ->
  exists c d' popped,
    mvn_connection_pass tk d = Returned c d' /\
    d'.(awaiting_echo_response) = true /\
    d.(message_queue) = d'.(message_queue) ++ popped /\
    d'.(sent) = d.(sent) ++ rev popped.
Proof.
  intros Ha Hn. destruct (socket d) as [h|] eqn:Hs.
  2:{ exists Break, d, []. unfold mvn_connection_pass.
      rewrite (bind_returned _ _ d false d)
        by (unfold get, is_connected; rewrite Hs; reflexivity).
      rewrite !app_nil_r. repeat split. exact Ha. }
  rewrite (pass_connected tk d h Hs).
  assert (Hpre : exists d1 popped,
            (bind pop_message (fun m =>
               match m with
               | Some message_str => exchange message_str tk.(net)
               | None => ret tt
               end)) d = Returned tt d1 /\
            d1.(awaiting_echo_response) = true /\
            d.(message_queue) = d1.(message_queue) ++ popped /\
            d1.(sent) = d.(sent) ++ rev popped).
  { destruct (pop_message_cases d) as [[Hq Hp]|(m & q & Hq & Hp)].
    - exists d, []. rewrite (bind_returned _ _ _ _ _ Hp).
      rewrite !app_nil_r. repeat split. exact Ha.
    - exists (set_sent (d.(sent) ++ [m]) (set_message_queue q d)), [m].
      rewrite (bind_returned _ _ _ _ _ Hp). cbv beta iota. rewrite Hn.
      repeat split; assumption. }
  destruct Hpre as (d1 & popped & Hpre & A1 & Q1 & S1).
  assert (Htry : mvn_connection_try tk d
                 = bind (check_activity tk.(t_check))
                        (fun _ => close_if_requested tk.(shutdown_ok)) d1).
  { unfold mvn_connection_try. unfold bind in Hpre |- *.
    destruct (pop_message d) as [om d0|e d0]; [|discriminate].
    destruct (match om with
              | Some message_str => exchange message_str (net tk)
              | None => ret tt
              end d0) as [[] d2|e d2]; [|discriminate].
    injection Hpre as ->. reflexivity. }
  unfold try_except. rewrite Htry.
  destruct (check_activity_while_awaiting tk.(t_check) d1 A1) as [Hc|Hc].
  - rewrite (bind_returned _ _ _ _ _ Hc).
    pose proof (close_if_requested_keeps tk.(shutdown_ok) d1) as (K1 & K2 & K3).
    destruct (close_if_requested (shutdown_ok tk) d1) as [c d2|e d2];
      simpl in K1, K2, K3.
    + exists c, d2, popped. split; [reflexivity|].
      rewrite K1, K2, K3. repeat split; assumption.
    + unfold mvn_connection_except. run_m.
      eexists Break, _, popped. split; [reflexivity|]. simpl.
      rewrite K1, K2, K3. repeat split; assumption.
  - rewrite (bind_raised _ _ _ _ _ Hc).
    unfold mvn_connection_except. run_m.
    eexists Break, _, popped. split; [reflexivity|]. simpl.
    repeat split; assumption.
Qed.

End NoSecondProbe.

(** X6. While the device awaits the echo of an identify probe and no
    datagram arrives, the session loop puts nothing into the queue,
    whatever the clocks read, until it leaves: over any number of silent
    passes the flag stays set, the queue only loses messages at its right
    end, and what was sent is exactly what the queue lost, oldest first. In
    particular the probe is not repeated. *)
Theorem probe_is_not_repeated_without_traffic
    {rt : Runtime} (ticks : list Tick) (d : Device) :
  d.(awaiting_echo_response) = true ->
  Forall (fun tk => tk.(net) = NetSilent) ticks ->
  let d' := final (mvn_connection ticks d) in
  d'.(awaiting_echo_response) = true /\
  exists popped,
    d.(message_queue) = d'.(message_queue) ++ popped /\
    d'.(sent) = d.(sent) ++ rev popped.
Proof.
  cbv zeta. revert d. induction ticks as [|tk rest IH]; intros d Ha Hs.
  { simpl. split; [exact Ha|]. exists []. rewrite !app_nil_r. split; reflexivity. }
  inversion Hs as [|? ? Htk Hrest]; subst.
  destruct (silent_pass_while_awaiting tk d Ha Htk)
    as (c & d1 & p1 & Hp & A1 & Q1 & S1).
  simpl. rewrite (bind_returned _ _ _ _ _ Hp).
  destruct c.
  - destruct (IH d1 A1 Hrest) as (A2 & p2 & Q2 & S2).
    split; [exact A2|]. exists (p2 ++ p1).
    rewrite Q1, Q2, S2, S1, rev_app_distr, !app_assoc. split; reflexivity.
  - simpl. split; [exact A1|]. exists p1. split; assumption.
Qed.

(** The theorem on the connected sample device over three silent passes,
    the last of which reads the clock past the timeout. *)
Lemma probe_is_not_repeated_without_traffic_witness :
  let ticks := [mkTick NetSilent 5 true; mkTick NetSilent 2000000 true;
                mkTick NetSilent 3100000 true] in
  let d' := final (mvn_connection (rt := Sample.runtime) ticks Sample.connected) in
  Sample.connected.(awaiting_echo_response) = true /\
  Forall (fun tk => tk.(net) = NetSilent) ticks /\
  d'.(awaiting_echo_response) = true /\
  exists popped,
    Sample.connected.(message_queue) = d'.(message_queue) ++ popped /\
    d'.(sent) = Sample.connected.(sent) ++ rev popped.
Proof.
  cbv zeta.
  assert (H1 : Sample.connected.(awaiting_echo_response) = true)
    by (vm_compute; reflexivity).
  assert (H2 : Forall (fun tk => tk.(net) = NetSilent)
                 [mkTick NetSilent 5 true; mkTick NetSilent 2000000 true;
                  mkTick NetSilent 3100000 true])
    by (repeat constructor).
  split; [exact H1|]. split; [exact H2|].
  exact (probe_is_not_repeated_without_traffic (rt := Sample.runtime) _ _ H1 H2).
Defined.

(* ------------------------------------------------------------------ *)
(** ** Idle passes and failed exchanges *)

(** X7. A pass with a socket held, an empty queue, no shutdown requested
    and the inactivity check within the timeout changes nothing at all and
    goes on, provided the elapsed time is within the ping interval or the
    device already awaits an echo. *)
Theorem idle_pass_changes_nothing
    {rt : Runtime} (tk : Tick) (d : Device) (h : Socket) :
  d.(socket) = Some h ->
  d.(message_queue) = [] ->
  d.(close_socket) = false ->
  tk.(t_check) - d.(last_activity) <= disconnect_timeout ->
  tk.(t_check) - d.(last_activity) <= ping_interval
  \/ d.(awaiting_echo_response) = true ->
  mvn_connection_pass tk d = Returned Continue d.
Proof.
  intros Hs Hq Hc Ht Hidle.
  rewrite (pass_connected tk d h Hs).
  apply try_except_returned. unfold mvn_connection_try.
  destruct (pop_message_cases d) as [[_ Hp]|(m & q & Hq' & _)].
  2:{ rewrite Hq in Hq'. destruct q; discriminate. }
  rewrite (bind_returned _ _ _ _ _ Hp). cbv beta iota.
  rewrite (bind_returned _ _ d tt d) by reflexivity.
  assert (Hchk : check_activity (t_check tk) d = Returned tt d).
  { destruct (Z_le_gt_dec (t_check tk - last_activity d) ping_interval).
    - apply check_activity_quiet. assumption.
    - destruct Hidle as [Hle|Ha]; [lia|].
      rewrite check_activity_ping by lia.
      apply send_identify_request_waiting. exact Ha. }
  rewrite (bind_returned _ _ _ _ _ Hchk).
  apply close_if_requested_not_requested. exact Hc.
Qed.

(** The theorem on the sample device that has received its
    [IdentifyAck] at clock 10, checked at clock 20. *)
Lemma idle_pass_changes_nothing_witness :
  let tk := mkTick NetSilent 20 true in
  Sample.ready.(socket) = Some 7%nat /\
  Sample.ready.(message_queue) = [] /\
  Sample.ready.(close_socket) = false /\
  tk.(t_check) - Sample.ready.(last_activity) <= disconnect_timeout /\
  (tk.(t_check) - Sample.ready.(last_activity) <= ping_interval
   \/ Sample.ready.(awaiting_echo_response) = true) /\
  mvn_connection_pass (rt := Sample.runtime) tk Sample.ready
  = Returned Continue Sample.ready.
Proof.
  cbv zeta.
  assert (H1 : Sample.ready.(socket) = Some 7%nat) by (vm_compute; reflexivity).
  assert (H2 : Sample.ready.(message_queue) = []) by (vm_compute; reflexivity).
  assert (H3 : Sample.ready.(close_socket) = false) by (vm_compute; reflexivity).
  assert (H4 : (mkTick NetSilent 20 true).(t_check) - Sample.ready.(last_activity)
               <= disconnect_timeout) by (vm_compute; discriminate).
  assert (H5 : (mkTick NetSilent 20 true).(t_check) - Sample.ready.(last_activity)
               <= ping_interval
               \/ Sample.ready.(awaiting_echo_response) = true)
    by (left; vm_compute; discriminate).
  repeat (split; [assumption|]).
  exact (idle_pass_changes_nothing (rt := Sample.runtime)
           (mkTick NetSilent 20 true) Sample.ready 7%nat H1 H2 H3 H4 H5).
Defined.

(** X8. When the exchange of a popped message fails in the transport, the
    message is not put back: the queue has lost it, it counts as sent only
    if the failure came after [sendto], and the pass logs the
    disconnection, signals it once and leaves the loop with the socket
    still held. *)
Theorem failed_exchange_discards_the_message
    {rt : Runtime} (tk : Tick) (d : Device) (h : Socket)
    (q : list bytes) (m : bytes) :
  d.(socket) = Some h ->
  d.(message_queue) = q ++ [m] ->
  tk.(net) = NetSendFails \/ tk.(net) = NetRecvFails ->
  exists d',
    mvn_connection_pass tk d = Returned Break d' /\
    d'.(message_queue) = q /\
    d'.(sent) = (match tk.(net) with
                 | NetSendFails => d.(sent)
                 | _ => d.(sent) ++ [m]
                 end) /\
    d'.(socket) = Some h /\
    d'.(host_calls) = d.(host_calls) ++ [signal_device_client_disconnected] /\
    d'.(log) = d.(log) ++ [(WARNING, MsgDisconnecting d.(name) OSError)].
Proof.
  intros Hs Hq Hn.
  rewrite (pass_connected tk d h Hs).
  destruct (pop_message_cases d) as [[Hq' _]|(m' & q' & Hq' & Hpop)].
  { rewrite Hq in Hq'. destruct q; discriminate. }
  rewrite Hq in Hq'. apply app_inj_tail in Hq' as [<- <-].
  set (d1 := set_message_queue q d) in *.
  assert (Hex : exists d2, exchange m tk.(net) d1 = Raised OSError d2 /\
            d2.(message_queue) = q /\ d2.(socket) = Some h /\
            d2.(host_calls) = d.(host_calls) /\ d2.(log) = d.(log) /\
            d2.(name) = d.(name) /\
            d2.(sent) = (match tk.(net) with
                         | NetSendFails => d.(sent)
                         | _ => d.(sent) ++ [m]
                         end)).
  { destruct Hn as [-> | ->]; eexists; (split; [reflexivity|]);
      simpl; repeat split; exact Hs. }
  destruct Hex as (d2 & Hex & E1 & E2 & E3 & E4 & E5 & E6).
  assert (Htry : mvn_connection_try tk d = Raised OSError d2).
  { unfold mvn_connection_try.
    rewrite (bind_returned _ _ _ _ _ Hpop). cbv beta iota.
    apply bind_raised. exact Hex. }
  rewrite (try_except_raised _ _ _ _ _ Htry).
  unfold mvn_connection_except. run_m.
  eexists. split; [reflexivity|]. simpl.
  rewrite E1, E2, E3, E4, E5, E6. repeat split.
Qed.

(** The theorem on the connected sample device with a failing [sendto]. *)
Lemma failed_exchange_discards_the_message_witness :
  let tk := mkTick NetSendFails 5 true in
  Sample.connected.(socket) = Some 7%nat /\
  Sample.connected.(message_queue) = [] ++ [bstr "<IdentifyReq />"] /\
  (tk.(net) = NetSendFails \/ tk.(net) = NetRecvFails) /\
  exists d',
    mvn_connection_pass (rt := Sample.runtime) tk Sample.connected
    = Returned Break d' /\
    d'.(message_queue) = [] /\
    d'.(sent) = (match tk.(net) with
                 | NetSendFails => Sample.connected.(sent)
                 | _ => Sample.connected.(sent) ++ [bstr "<IdentifyReq />"]
                 end) /\
    d'.(socket) = Some 7%nat /\
    d'.(host_calls)
    = Sample.connected.(host_calls) ++ [signal_device_client_disconnected] /\
    d'.(log) = Sample.connected.(log)
               ++ [(WARNING, MsgDisconnecting Sample.connected.(name) OSError)].
Proof.
  cbv zeta.
  assert (H1 : Sample.connected.(socket) = Some 7%nat) by (vm_compute; reflexivity).
  assert (H2 : Sample.connected.(message_queue) = [] ++ [bstr "<IdentifyReq />"])
    by (vm_compute; reflexivity).
  assert (H3 : (mkTick NetSendFails 5 true).(net) = NetSendFails
               \/ (mkTick NetSendFails 5 true).(net) = NetRecvFails)
    by (left; reflexivity).
  repeat (split; [assumption|]).
  exact (failed_exchange_discards_the_message (rt := Sample.runtime)
           (mkTick NetSendFails 5 true) Sample.connected 7%nat []
           (bstr "<IdentifyReq />") H1 H2 H3).
Defined.

(* ------------------------------------------------------------------ *)
(** ** Building requests *)

Section RequestFacts.
Context {rt : Runtime}.

Lemma dict_set_new_key k v (d : Dict) :
  ~ In k (map fst d) -> dict_set k v d = d ++ [(k, v)].
Proof.
  induction d as [|[k' v'] d IH]; simpl; intros Hn; [reflexivity|].
  destruct (String.eqb_spec k k') as [->|Hne].
  - exfalso. apply Hn. left. reflexivity.
  - rewrite IH; [reflexivity|]. intros Hin. apply Hn. right. exact Hin.
Qed.

Lemma set_all_attributes t (data acc : Dict) :
  NoDup (map fst (acc ++ data)) ->
  fold_left (fun e kv => Element_set (fst kv) (snd kv) e) data (Elem t acc [])
  = Elem t (acc ++ data) [].
Proof.
  revert acc. induction data as [|[k v] data IH]; intros acc Hnd; simpl.
  - rewrite app_nil_r. reflexivity.
  - rewrite dict_set_new_key.
    + rewrite IH; rewrite <- app_assoc; [reflexivity | exact Hnd].
    + rewrite map_app in Hnd. simpl in Hnd.
      apply NoDup_remove_2 in Hnd. intros Hin. apply Hnd.
      apply in_or_app. left. exact Hin.
Qed.

End RequestFacts.

(** X9. For a request dict (its keys are distinct), [send_request_to_mvn]
    never raises and pushes exactly one message at the left of the queue:
    the serialization of the element whose tag is the message type, whose
    attributes are the dict's pairs in their order and which has no
    children. It writes one log record and changes nothing else. *)
Theorem send_request_to_mvn_encodes_the_dict
    {rt : Runtime} (message_type : string) (data : Dict) (d : Device) :
  NoDup (map fst data) ->
  send_request_to_mvn message_type data d
  = Returned tt
      (set_message_queue
         (tostring (Elem message_type data []) :: d.(message_queue))
         (set_log (d.(log) ++ [(WARNING, MsgXmlString data)]) d)).
Proof.
  intros Hnd. rewrite send_request_to_mvn_queue.
  unfold new_Element. rewrite (set_all_attributes message_type data []); [reflexivity|].
  exact Hnd.
Qed.

(** The theorem on a two-key dict and the fresh sample device. *)
Lemma send_request_to_mvn_encodes_the_dict_witness :
  let data := [("SessionName", "sceneA"); ("Description", "desc")] in
  NoDup (map fst data) /\
  send_request_to_mvn (rt := Sample.runtime) "StartRecordingReq" data Sample.fresh
  = Returned tt
      (set_message_queue
         (tostring (Runtime := Sample.runtime) (Elem "StartRecordingReq" data [])
          :: Sample.fresh.(message_queue))
         (set_log (Sample.fresh.(log) ++ [(WARNING, MsgXmlString data)])
                  Sample.fresh)).
Proof.
  cbv zeta.
  assert (H : NoDup (map fst [("SessionName", "sceneA"); ("Description", "desc")])).
  { simpl. constructor.
    - intros [E|[]]. discriminate E.
    - constructor; [intros []|constructor]. }
  split; [exact H|].
  exact (send_request_to_mvn_encodes_the_dict (rt := Sample.runtime)
           "StartRecordingReq" _ Sample.fresh H).
Defined.

(** X10. [record_stop] never raises. It always logs that recording stops;
    when the base class reports the device disconnected or the stop trigger
    is off it does nothing more, and otherwise it queues exactly one
    [StopRecordingReq] without attributes. Whether a socket is held plays
    no part. *)
Theorem record_stop_outcome {rt : Runtime} (d : Device) :
  let logged := set_log (d.(log) ++ [(WARNING, MsgStoppingRecording)]) d in
  record_stop d
  = Returned tt
      (if (is_disconnected d || negb d.(trigger_stop))%bool
       then logged
       else set_message_queue
              (tostring (Elem "StopRecordingReq" [] []) :: d.(message_queue))
              (set_log (logged.(log) ++ [(WARNING, MsgXmlString [])]) logged)).
Proof.
  cbv zeta. unfold record_stop. run_m.
  change (is_disconnected (set_log (log d ++ [(WARNING, MsgStoppingRecording)]) d))
    with (is_disconnected d).
  destruct (is_disconnected d || negb (trigger_stop d))%bool; reflexivity.
Qed.

(* ------------------------------------------------------------------ *)
(** ** The life cycle of a connection *)

Section LifeCycleFacts.
Context {rt : Runtime}.

Lemma not_running_after_exit tid (l : list nat) :
  existsb (Nat.eqb tid) (filter (fun t => negb (Nat.eqb tid t)) l) = false.
Proof.
  induction l as [|t l IH]; simpl; [reflexivity|].
  destruct (Nat.eqb tid t) eqn:E; simpl; [exact IH|].
  rewrite E. exact IH.
Qed.

Lemma running_iff tid (l : list nat) :
  existsb (Nat.eqb tid) l = true <-> In tid l.
Proof.
  rewrite existsb_exists. split.
  - intros (t & Hin & E). apply Nat.eqb_eq in E. subst. exact Hin.
  - intros Hin. exists tid. split; [exact Hin | apply Nat.eqb_refl].
Qed.

(** A pass over an empty queue that reads the clock past the timeout, as
    an equation. *)
Lemma timeout_pass tk d h :
  d.(socket) = Some h ->
  d.(message_queue) = [] ->
  disconnect_timeout < tk.(t_check) - d.(last_activity) ->
  mvn_connection_pass tk d
  = Returned Break
      (set_host_calls (d.(host_calls) ++ [signal_device_client_disconnected])
         (set_log (d.(log) ++ [(WARNING, MsgDisconnecting d.(name)
                                          (Exception "Connection timeout"))]) d)).
Proof.
  intros Hs Hq Ht. rewrite (pass_connected tk d h Hs).
  assert (Htry : mvn_connection_try tk d
                 = Raised (Exception "Connection timeout") d).
  { unfold mvn_connection_try.
    destruct (pop_message_cases d) as [[_ Hp]|(m & q & Hq' & _)].
    - rewrite (bind_returned _ _ _ _ _ Hp). cbv beta iota.
      rewrite (bind_returned _ _ d tt d) by reflexivity.
      apply bind_raised. apply check_activity_timeout. exact Ht.
    - rewrite Hq in Hq'. destruct q; discriminate. }
  rewrite (try_except_raised _ _ _ _ _ Htry). reflexivity.
Qed.

(** [disconnect_listener] when the thread it would join has exited. *)
Lemma disconnect_listener_thread_gone d h tid :
  d.(socket) = Some h ->
  d.(mvn_connection_thread) = Some tid ->
  existsb (Nat.eqb tid) d.(running_loops) = false ->
  disconnect_listener d
  = Returned tt
      (set_host_calls (d.(host_calls) ++ [super_disconnect_listener])
                      (set_close_socket true d)).
Proof.
  intros Hs Hth Hex. unfold disconnect_listener. run_m. unfold is_connected.
  rewrite Hs. simpl. rewrite Hth. simpl. rewrite Hex. reflexivity.
Qed.

(** A quiet pass over a non-empty queue, as an equation. *)
Lemma quiet_pass_equation tk d h q m :
  d.(socket) = Some h ->
  d.(message_queue) = q ++ [m] ->
  quiet_tick d.(last_activity) tk ->
  let d1 := set_sent (d.(sent) ++ [m]) (set_message_queue q d) in
  mvn_connection_pass tk d
  = if (d.(close_socket) && match q with [] => true | _ => false end)%bool
    then Returned Break
           (set_socket None
              (set_open_sockets
                 (filter (fun h' => negb (Nat.eqb h h')) d.(open_sockets)) d1))
    else Returned Continue d1.
Proof.
  intros Hs Hq (Hn & Ht & Hok). cbv zeta.
  rewrite (pass_connected tk d h Hs).
  destruct (pop_message_cases d) as [[Hq' _]|(m' & q' & Hq' & Hpop)].
  { rewrite Hq in Hq'. destruct q; discriminate. }
  rewrite Hq in Hq'. apply app_inj_tail in Hq' as [<- <-].
  set (d1 := set_sent (d.(sent) ++ [m]) (set_message_queue q d)).
  assert (Hchk : check_activity (t_check tk) d1 = Returned tt d1)
    by (apply check_activity_quiet; exact Ht).
  assert (Htry : mvn_connection_try tk d
                 = close_if_requested (shutdown_ok tk) d1).
  { unfold mvn_connection_try.
    rewrite (bind_returned _ _ _ _ _ Hpop). cbv beta iota.
    rewrite (bind_returned _ _ (set_message_queue q d) tt d1)
      by (rewrite Hn; reflexivity).
    rewrite (bind_returned _ _ _ _ _ Hchk). reflexivity. }
  unfold try_except. rewrite Htry, Hok.
  unfold close_if_requested. run_m.
  destruct (close_socket d) eqn:Hc; simpl; [|reflexivity].
  destruct q as [|y q]; simpl; [|reflexivity].
  rewrite Hs. reflexivity.
Qed.

End LifeCycleFacts.

(** X12. After the session loop has left on the inactivity timeout, the
    socket is never released: the pass signals the disconnection without
    touching the socket, and a following [disconnect_listener], which
    finds the thread gone, only sets the shutdown request and calls the
    base class. The handle stays held, the socket stays open and
    [is_connected] stays true. *)
Theorem socket_stays_open_after_a_timed_out_session
    {rt : Runtime} (tid : nat) (tk : Tick) (d : Device) (h : Socket) :
  d.(socket) = Some h ->
  d.(joining) = None ->
  d.(mvn_connection_thread) = Some tid ->
  In tid d.(running_loops) ->
  d.(message_queue) = [] ->
  disconnect_timeout < tk.(t_check) - d.(last_activity) ->
  let d' := run [Loop tid tk; Host Disconnect] d in
  d'.(socket) = Some h /\
  is_connected d' = true /\
  d'.(open_sockets) = d.(open_sockets) /\
  d'.(close_socket) = true /\
  ~ In tid d'.(running_loops) /\
  d'.(host_calls)
  = d.(host_calls) ++ [signal_device_client_disconnected; super_disconnect_listener].
Proof.
  intros Hs Hj Hth Hrun Hq Ht. cbv zeta. unfold run. cbn [fold_left].
  pose proof (timeout_pass tk d h Hs Hq Ht) as Hp.
  apply running_iff in Hrun.
  assert (E1 : exists d1, step (Loop tid tk) d = d1 /\
            d1.(socket) = Some h /\ d1.(joining) = None /\
            d1.(mvn_connection_thread) = Some tid /\
            d1.(running_loops)
            = filter (fun t => negb (Nat.eqb tid t)) d.(running_loops) /\
            d1.(open_sockets) = d.(open_sockets) /\
            d1.(host_calls)
            = d.(host_calls) ++ [signal_device_client_disconnected]).
  { eexists. split; [reflexivity|]. unfold step. rewrite Hrun.
    unfold loop_event. rewrite (bind_returned _ _ _ _ _ Hp). cbv beta iota.
    run_m. rewrite Hj. simpl. repeat split; assumption. }
  destruct E1 as (d1 & -> & A1 & A2 & A3 & A4 & A5 & A6).
  assert (Hgone : existsb (Nat.eqb tid) d1.(running_loops) = false)
    by (rewrite A4; apply not_running_after_exit).
  unfold step. rewrite A2. cbn [host_call].
  rewrite (disconnect_listener_thread_gone d1 h tid A1 A3 Hgone).
  unfold is_connected. simpl.
  rewrite A1, A5, A6, <- app_assoc. simpl.
  repeat split.
  intros Hin. apply running_iff in Hin. congruence.
Qed.

(** The theorem on the sample device that was acknowledged at clock 10 and
    hears nothing until 3.2 s. *)
Lemma socket_stays_open_after_a_timed_out_session_witness :
  let tk := mkTick NetSilent 3200000 true in
  let d' := run (rt := Sample.runtime) [Loop 0%nat tk; Host Disconnect] Sample.ready in
  Sample.ready.(socket) = Some 7%nat /\
  Sample.ready.(joining) = None /\
  Sample.ready.(mvn_connection_thread) = Some 0%nat /\
  In 0%nat Sample.ready.(running_loops) /\
  Sample.ready.(message_queue) = [] /\
  disconnect_timeout < tk.(t_check) - Sample.ready.(last_activity) /\
  d'.(socket) = Some 7%nat /\
  is_connected d' = true /\
  d'.(open_sockets) = Sample.ready.(open_sockets) /\
  d'.(close_socket) = true /\
  ~ In 0%nat d'.(running_loops) /\
  d'.(host_calls)
  = Sample.ready.(host_calls)
    ++ [signal_device_client_disconnected; super_disconnect_listener].
Proof.
  cbv zeta.
  assert (H1 : Sample.ready.(socket) = Some 7%nat) by (vm_compute; reflexivity).
  assert (H2 : Sample.ready.(joining) = None) by (vm_compute; reflexivity).
  assert (H3 : Sample.ready.(mvn_connection_thread) = Some 0%nat)
    by (vm_compute; reflexivity).
  assert (H4 : In 0%nat Sample.ready.(running_loops))
    by (vm_compute; left; reflexivity).
  assert (H5 : Sample.ready.(message_queue) = []) by (vm_compute; reflexivity).
  assert (H6 : disconnect_timeout
               < (mkTick NetSilent 3200000 true).(t_check)
                 - Sample.ready.(last_activity))
    by (vm_compute; reflexivity).
  split; [exact H1|]. split; [exact H2|]. split; [exact H3|].
  split; [exact H4|]. split; [exact H5|]. split; [exact H6|].
  exact (socket_stays_open_after_a_timed_out_session (rt := Sample.runtime)
           0%nat (mkTick NetSilent 3200000 true) Sample.ready 7%nat
           H1 H2 H3 H4 H5 H6).
Defined.

(** X13. [connect_listener] keeps whatever is queued, and the session it
    starts sends that backlog, oldest first, before its own identify probe:
    after a connection on a bound socket, one quiet pass per queued message
    and one more leave the queue empty with the old messages sent first and
    the probe last. *)
Theorem backlog_is_sent_before_the_probe
    {rt : Runtime} (ticks : list Tick) (d : Device) (h : Socket) (now : Time) :
  List.length ticks = S (List.length d.(message_queue)) ->
  Forall (quiet_tick now) ticks ->
  let d1 := final (connect_listener (Bound h) now d) in
  exists d',
    mvn_connection ticks d1 = Returned Continue d' /\
    d'.(sent)
    = d.(sent) ++ rev d.(message_queue) ++ [tostring (new_Element "IdentifyReq")] /\
    d'.(message_queue) = [].
Proof.
  intros Hlen Hq. cbv zeta.
  set (d1 := final (connect_listener (Bound h) now d)).
  assert (E : d1.(socket) = Some h /\ d1.(close_socket) = false /\
              d1.(last_activity) = now /\ d1.(sent) = d.(sent) /\
              d1.(message_queue)
              = tostring (new_Element "IdentifyReq") :: d.(message_queue)).
  { subst d1. cbn. repeat split. }
  destruct E as (Hs & Hc & Hla & Hsent & Hmq).
  destruct (quiet_passes_flush_the_queue ticks d1 h) as (d' & Hr & R1 & R2 & _).
  - exact Hs.
  - rewrite Hmq. discriminate.
  - rewrite Hmq. simpl. exact Hlen.
  - rewrite Hla. exact Hq.
  - exists d'. rewrite Hc in Hr. split; [exact Hr|]. split; [|exact R2].
    rewrite R1, Hsent, Hmq. simpl. reflexivity.
Qed.

(** The theorem on the connected sample device, connected once more on
    socket 8 at clock 100 with its first probe still queued. *)
Lemma backlog_is_sent_before_the_probe_witness :
  let ticks := [mkTick NetSilent 105 true; mkTick NetSilent 110 true] in
  let d1 := final (connect_listener (rt := Sample.runtime) (Bound 8%nat) 100
                                    Sample.connected) in
  List.length ticks = S (List.length Sample.connected.(message_queue)) /\
  Forall (quiet_tick 100) ticks /\
  exists d',
    mvn_connection (rt := Sample.runtime) ticks d1 = Returned Continue d' /\
    d'.(sent)
    = Sample.connected.(sent) ++ rev Sample.connected.(message_queue)
      ++ [tostring (Runtime := Sample.runtime) (new_Element "IdentifyReq")] /\
    d'.(message_queue) = [].
Proof.
  cbv zeta.
  assert (H1 : List.length [mkTick NetSilent 105 true; mkTick NetSilent 110 true]
               = S (List.length Sample.connected.(message_queue)))
    by (vm_compute; reflexivity).
  assert (H2 : Forall (quiet_tick 100)
                 [mkTick NetSilent 105 true; mkTick NetSilent 110 true]).
  { repeat constructor; vm_compute; discriminate. }
  repeat (split; [assumption|]).
  exact (backlog_is_sent_before_the_probe (rt := Sample.runtime)
           _ Sample.connected 8%nat 100 H1 H2).
Defined.

(** X14. [connect_listener] stores the new socket before it binds it. When
    the bind fails on a device that has never started a session loop, the
    call raises with the socket held and open, no thread started and
    nothing queued; [is_connected] is then true, and [disconnect_listener]
    sets the shutdown request and raises [AttributeError] on the missing
    thread instead of closing the socket. *)
Theorem failed_bind_leaves_a_socket_that_cannot_be_disconnected
    {rt : Runtime} (d : Device) (h : Socket) (now : Time) :
  d.(mvn_connection_thread) = None ->
  let d1 := final (connect_listener (BindFails h) now d) in
  connect_listener (BindFails h) now d = Raised OSError d1 /\
  d1.(socket) = Some h /\
  is_connected d1 = true /\
  d1.(open_sockets) = d.(open_sockets) ++ [h] /\
  d1.(running_loops) = d.(running_loops) /\
  d1.(message_queue) = d.(message_queue) /\
  disconnect_listener d1
  = Raised (AttributeError "join") (set_close_socket true d1).
Proof.
  intros Hth. cbv zeta. cbn. unfold disconnect_listener. run_m.
  rewrite Hth. repeat split.
Qed.

(** The theorem on the fresh sample device. *)
Lemma failed_bind_leaves_a_socket_that_cannot_be_disconnected_witness :
  let d1 := final (connect_listener (rt := Sample.runtime) (BindFails 7%nat) 5
                                    Sample.fresh) in
  Sample.fresh.(mvn_connection_thread) = None /\
  connect_listener (rt := Sample.runtime) (BindFails 7%nat) 5 Sample.fresh
  = Raised OSError d1 /\
  d1.(socket) = Some 7%nat /\
  is_connected d1 = true /\
  d1.(open_sockets) = Sample.fresh.(open_sockets) ++ [7%nat] /\
  d1.(running_loops) = Sample.fresh.(running_loops) /\
  d1.(message_queue) = Sample.fresh.(message_queue) /\
  disconnect_listener d1
  = Raised (AttributeError "join") (set_close_socket true d1).
Proof.
  cbv zeta.
  assert (H : Sample.fresh.(mvn_connection_thread) = None) by reflexivity.
  split; [exact H|].
  exact (failed_bind_leaves_a_socket_that_cannot_be_disconnected
           (rt := Sample.runtime) Sample.fresh 7%nat 5 H).
Defined.

(* ------------------------------------------------------------------ *)
(** ** The widget *)

Module WidgetFacts.
Import Widget.

Lemma connect_calls_establish c w :
  touches_connect c = true -> triggers_follow_connect (call c w).
Proof.
  destruct c; try discriminate; intros _; unfold triggers_follow_connect;
    simpl; try (split; reflexivity).
  unfold connect_button_clicked.
  destruct (checked (connect_button w)); split; reflexivity.
Qed.

Lemma trigger_calls_preserve c w :
  touches_connect c = false ->
  triggers_follow_connect w -> triggers_follow_connect (call c w).
Proof.
  destruct c; try discriminate; intros _ H; unfold triggers_follow_connect in *;
    simpl.
  - unfold trigger_start_clicked.
    destruct (checked (trigger_start_button w)); exact H.
  - unfold trigger_stop_clicked.
    destruct (checked (trigger_stop_button w)); exact H.
Qed.

End WidgetFacts.

(** X15. Over any sequence of handler calls on the widget, both trigger
    buttons are disabled exactly when the connect button is unchecked at
    the end, provided this held at the start or the sequence contains a
    call of [connect_button_clicked], [_connect] or [_disconnect]. *)
Theorem widget_triggers_follow_the_connect_button
    (cs : list Widget.Call) (w : Widget.DeviceWidget) :
  Widget.triggers_follow_connect w
  \/ existsb Widget.touches_connect cs = true ->
  Widget.triggers_follow_connect (Widget.calls cs w).
Proof.
  revert w. induction cs as [|c cs IH]; intros w H; simpl.
  - destruct H as [H|H]; [exact H | discriminate H].
  - apply IH. destruct (Widget.touches_connect c) eqn:E.
    + left. apply WidgetFacts.connect_calls_establish. exact E.
    + destruct H as [H|H].
      * left. apply WidgetFacts.trigger_calls_preserve; assumption.
      * right. simpl in H. rewrite E in H. exact H.
Qed.

(** The theorem on a widget whose connect button starts checked while the
    trigger buttons start disabled, after a click on the connect button and
    one on the start trigger. *)
Lemma widget_triggers_follow_the_connect_button_witness :
  let w := Widget._add_control_buttons (Widget.mkButton true false) in
  let cs := [Widget.ConnectButtonClicked; Widget.TriggerStartClicked] in
  (Widget.triggers_follow_connect w
   \/ existsb Widget.touches_connect cs = true) /\
  Widget.triggers_follow_connect (Widget.calls cs w).
Proof.
  cbv zeta.
  assert (H : Widget.triggers_follow_connect
                (Widget._add_control_buttons (Widget.mkButton true false))
              \/ existsb Widget.touches_connect
                   [Widget.ConnectButtonClicked; Widget.TriggerStartClicked] = true)
    by (right; reflexivity).
  split; [exact H|].
  exact (widget_triggers_follow_the_connect_button _ _ H).
Defined.

(** What one handler call does to the signals and to the checked states. *)
Lemma widget_call_emits_one_signal
    (c : Widget.Call) (w : Widget.DeviceWidget) :
  let w' := Widget.call c w in
  w'.(Widget.emitted) = w.(Widget.emitted) ++ [Widget.signal_of c w] /\
  w'.(Widget.trigger_start_button).(Widget.checked)
  = w.(Widget.trigger_start_button).(Widget.checked) /\
  w'.(Widget.trigger_stop_button).(Widget.checked)
  = w.(Widget.trigger_stop_button).(Widget.checked) /\
  (Widget.connect_button_clicked w).(Widget.connect_button).(Widget.checked)
  = w.(Widget.connect_button).(Widget.checked).
Proof.
  cbv zeta. destruct c; simpl;
    unfold Widget.trigger_start_clicked, Widget.trigger_stop_clicked,
           Widget.connect_button_clicked;
    destruct (Widget.checked (Widget.trigger_start_button w)) eqn:E1;
    destruct (Widget.checked (Widget.trigger_stop_button w)) eqn:E2;
    destruct (Widget.checked (Widget.connect_button w)) eqn:E3;
    simpl; rewrite ?E1, ?E2, ?E3; repeat split.
Qed.

(** X16. Over any sequence of handler calls the widget emits exactly one
    signal per call, and no call changes whether a trigger button is
    checked: the handlers only read that state to report it. *)
Theorem widget_calls_emit_one_signal_each
    (cs : list Widget.Call) (w : Widget.DeviceWidget) :
  let w' := Widget.calls cs w in
  List.length w'.(Widget.emitted)
  = (List.length w.(Widget.emitted) + List.length cs)%nat /\
  w'.(Widget.trigger_start_button).(Widget.checked)
  = w.(Widget.trigger_start_button).(Widget.checked) /\
  w'.(Widget.trigger_stop_button).(Widget.checked)
  = w.(Widget.trigger_stop_button).(Widget.checked).
Proof.
  cbv zeta. revert w. induction cs as [|c cs IH]; intros w; simpl.
  - repeat split. lia.
  - destruct (IH (Widget.call c w)) as (L & A & B).
    destruct (widget_call_emits_one_signal c w) as (E & A' & B' & _).
    rewrite L, A, B, E, A', B', List.length_app. simpl. repeat split. lia.
Qed.

(* ------------------------------------------------------------------ *)
(** ** The session loop as a whole *)

(** X17. Against any environment the session loop never raises and emits
    the disconnection signal at most once. While it runs, the socket and
    the number of signals stay as they were; when it has left, either no
    signal was emitted, or exactly one was and the socket it started with
    is still held. *)
Theorem session_loop_signals_at_most_once
    {rt : Runtime} (ticks : list Tick) (d : Device) :
  exists c d',
    mvn_connection ticks d = Returned c d' /\
    match c with
    | Continue =>
        d'.(socket) = d.(socket) /\ signals_emitted d' = signals_emitted d
    | Break =>
        signals_emitted d' = signals_emitted d \/
        (signals_emitted d' = S (signals_emitted d) /\
         d.(socket) <> None /\ d'.(socket) = d.(socket))
    end.
Proof.
  revert d. induction ticks as [|tk rest IH]; intros d.
  { exists Continue, d. repeat split. }
  destruct (pass_outcomes tk d) as (c & d1 & Hp & Hc).
  simpl. rewrite (bind_returned _ _ _ _ _ Hp).
  destruct c.
  - destruct Hc as (Hne & Hs & Hsig).
    destruct (IH d1) as (c' & d' & Hr & Hc').
    exists c', d'. split; [exact Hr|].
    destruct c'.
    + destruct Hc' as (Hs' & Hsig'). split; congruence.
    + destruct Hc' as [Hsig'|(Hsig' & Hne' & Hs')].
      * left. congruence.
      * right. repeat split; congruence.
  - exists Break, d1. split; [reflexivity|].
    destruct Hc as [(_ & ->)|[(_ & _ & _ & _ & Hsig & _)|(Hne & Hs & Hsig)]].
    + left. reflexivity.
    + left. exact Hsig.
    + right. repeat split; assumption.
Qed.

(* ------------------------------------------------------------------ *)
(** ** A pass that reads a datagram *)

Section ReplyFacts.
Context {rt : Runtime}.

Lemma process_message_raises_cases now data d :
  raises (process_message now data d)
  = match fromstring data with
    | ParseError => false
    | DecodeRaises _ => true
    | Parsed e => negb (existsb (String.eqb (tag e)) registered_tags)
    end.
Proof.
  unfold process_message. run_m.
  destruct (fromstring data) as [[t a c]| |e]; try reflexivity.
  simpl.
  destruct (String.eqb t "IdentifyAck"); [reflexivity|].
  destruct (String.eqb t "StartRecordingAck"); [reflexivity|].
  destruct (String.eqb t "StopRecordingAck"); [reflexivity|].
  destruct (String.eqb t "CaptureNameAck"); reflexivity.
Qed.

(** A pass that pops a message and reads a datagram within the timeout,
    with no shutdown requested: it leaves the loop with one signal when
    [process_message] raises on the datagram and goes on without a signal
    when it returns; either way the timestamp is the clock of the receive
    and the socket stays held. *)
Lemma pass_with_reply tk d h q m data t :
  d.(socket) = Some h ->
  d.(message_queue) = q ++ [m] ->
  d.(close_socket) = false ->
  tk.(net) = NetReply data t ->
  tk.(t_check) - t <= disconnect_timeout ->
  let popped := set_sent (d.(sent) ++ [m]) (set_message_queue q d) in
  let failed := raises (process_message t data popped) in
  exists d',
    mvn_connection_pass tk d
    = Returned (if failed then Break else Continue) d' /\
    d'.(last_activity) = t /\
    d'.(socket) = Some h /\
    signals_emitted d'
    = (if failed then S (signals_emitted d) else signals_emitted d).
Proof.
  intros Hs Hq Hc Hn Ht. cbv zeta.
  rewrite (pass_connected tk d h Hs).
  destruct (pop_message_cases d) as [[Hq' _]|(m' & q' & Hq' & Hpop)].
  { rewrite Hq in Hq'. destruct q; discriminate. }
  rewrite Hq in Hq'. apply app_inj_tail in Hq' as [<- <-].
  set (d1 := set_sent (d.(sent) ++ [m]) (set_message_queue q d)).
  pose proof (process_message_same_connection t data d1) as (F1 & F2 & _ & F4).
  pose proof (process_message_last_activity t data d1) as Hla.
  assert (Hex : exchange m tk.(net) (set_message_queue q d)
                = process_message t data d1).
  { rewrite Hn. unfold exchange.
    rewrite (bind_returned _ _ (set_message_queue q d) tt d1) by reflexivity.
    reflexivity. }
  destruct (process_message t data d1) as [[] d2|e d2] eqn:Hpm;
    simpl in F1, F2, F4, Hla |- *.
  - destruct (check_activity_alive tk.(t_check) d2) as (d3 & Hchk & G1 & G2 & G3 & G4 & _).
    { rewrite Hla. exact Ht. }
    exists d3. split.
    + apply try_except_returned. unfold mvn_connection_try.
      rewrite (bind_returned _ _ _ _ _ Hpop). cbv beta iota.
      rewrite (bind_returned _ _ _ _ _ Hex).
      rewrite (bind_returned _ _ _ _ _ Hchk).
      apply close_if_requested_not_requested. rewrite G3, F2. exact Hc.
    + rewrite G4, Hla, G2, F1. repeat split; [exact Hs|].
      unfold signals_emitted in *. rewrite G1, F4. reflexivity.
  - assert (Htry : mvn_connection_try tk d = Raised e d2).
    { unfold mvn_connection_try.
      rewrite (bind_returned _ _ _ _ _ Hpop). cbv beta iota.
      apply bind_raised. exact Hex. }
    rewrite (try_except_raised _ _ _ _ _ Htry).
    unfold mvn_connection_except. run_m.
    eexists. split; [reflexivity|]. simpl.
    rewrite Hla, F1. repeat split; [exact Hs|].
    unfold signals_emitted in *. simpl.
    rewrite filter_app, List.length_app, F4. simpl. lia.
Qed.

End ReplyFacts.

(** C10 (amended to the datagrams the method survives). For every
    datagram, [process_message] stores the clock it reads on entry as the
    last-activity timestamp before it decodes, whether it then returns or
    raises, so that the inactivity check that follows times out exactly
    when its own clock is more than the disconnect timeout past that
    reading. A pass that pops a message and reads the datagram, with no
    shutdown requested and its check within the timeout, ends with that
    timestamp and the socket held; it goes on without a signal when the
    decoder signals [ParseError] or the datagram decodes to a registered
    tag, and it signals the disconnection and leaves the loop when the
    decoder raises another exception. *)
Theorem every_datagram_resets_the_inactivity_timer
    {rt : Runtime} (tk : Tick) (d : Device) (h : Socket)
    (q : list bytes) (m data : bytes) (t : Time) :
  d.(socket) = Some h ->
  d.(message_queue) = q ++ [m] ->
  d.(close_socket) = false ->
  tk.(net) = NetReply data t ->
  tk.(t_check) - t <= disconnect_timeout ->
  (forall now d0,
     let d1 := final (process_message now data d0) in
     d1.(last_activity) = now /\
     forall t', raises (check_activity t' d1) = (disconnect_timeout <? t' - now)) /\
  exists c d',
    mvn_connection_pass tk d = Returned c d' /\
    d'.(last_activity) = t /\
    d'.(socket) = Some h /\
    match fromstring data with
    | ParseError =>
        c = Continue /\ signals_emitted d' = signals_emitted d
    | Parsed e =>
        if existsb (String.eqb (tag e)) registered_tags
        then c = Continue /\ signals_emitted d' = signals_emitted d
        else True
    | DecodeRaises _ =>
        c = Break /\ signals_emitted d' = S (signals_emitted d)
    end.
Proof.
  intros Hs Hq Hc Hn Ht. split.
  - intros now d0. cbv zeta.
    pose proof (process_message_last_activity now data d0) as H.
    split; [exact H|]. intros t'.
    set (d1 := final (process_message now data d0)) in *.
    destruct (Z.ltb_spec disconnect_timeout (t' - now)) as [Hgt|Hle].
    + rewrite check_activity_timeout by (rewrite H; exact Hgt). reflexivity.
    + destruct (check_activity_alive t' d1) as (d'' & Hchk & _).
      * rewrite H. exact Hle.
      * rewrite Hchk. reflexivity.
  - destruct (pass_with_reply tk d h q m data t Hs Hq Hc Hn Ht)
      as (d' & Hp & L & S & G).
    cbv zeta in Hp, G. rewrite process_message_raises_cases in Hp, G.
    eexists _, d'. split; [exact Hp|]. split; [exact L|]. split; [exact S|].
    destruct (fromstring data) as [e| |x].
    + destruct (existsb (String.eqb (tag e)) registered_tags); simpl in *.
      * split; [reflexivity | exact G].
      * exact I.
    + split; [reflexivity | exact G].
    + split; [reflexivity | exact G].
Qed.

(** The theorem on the connected sample device whose probe is answered by
    [<IdentifyAck/>] at clock 10. *)
Lemma every_datagram_resets_the_inactivity_timer_witness :
  let data := bstr "<IdentifyAck/>" in
  let tk := mkTick (NetReply data 10) 20 true in
  let d := Sample.connected in
  d.(socket) = Some 7%nat /\
  d.(message_queue) = [] ++ [bstr "<IdentifyReq />"] /\
  d.(close_socket) = false /\
  tk.(net) = NetReply data 10 /\
  tk.(t_check) - 10 <= disconnect_timeout /\
  (forall now d0,
     let d1 := final (process_message (rt := Sample.runtime) now data d0) in
     d1.(last_activity) = now /\
     forall t',
       raises (check_activity (rt := Sample.runtime) t' d1)
       = (disconnect_timeout <? t' - now)) /\
  exists c d',
    mvn_connection_pass (rt := Sample.runtime) tk d = Returned c d' /\
    d'.(last_activity) = 10 /\
    d'.(socket) = Some 7%nat /\
    match fromstring (Runtime := Sample.runtime) data with
    | ParseError =>
        c = Continue /\ signals_emitted d' = signals_emitted d
    | Parsed e =>
        if existsb (String.eqb (tag e)) registered_tags
        then c = Continue /\ signals_emitted d' = signals_emitted d
        else True
    | DecodeRaises _ =>
        c = Break /\ signals_emitted d' = S (signals_emitted d)
    end.
Proof.
  cbv zeta.
  assert (H1 : Sample.connected.(socket) = Some 7%nat) by (vm_compute; reflexivity).
  assert (H2 : Sample.connected.(message_queue) = [] ++ [bstr "<IdentifyReq />"])
    by (vm_compute; reflexivity).
  assert (H3 : Sample.connected.(close_socket) = false) by (vm_compute; reflexivity).
  assert (H4 : (mkTick (NetReply (bstr "<IdentifyAck/>") 10) 20 true).(net)
               = NetReply (bstr "<IdentifyAck/>") 10) by reflexivity.
  assert (H5 : (mkTick (NetReply (bstr "<IdentifyAck/>") 10) 20 true).(t_check) - 10
               <= disconnect_timeout) by (vm_compute; discriminate).
  split; [exact H1|]. split; [exact H2|]. split; [exact H3|].
  split; [exact H4|]. split; [exact H5|].
  exact (every_datagram_resets_the_inactivity_timer (rt := Sample.runtime)
           (mkTick (NetReply (bstr "<IdentifyAck/>") 10) 20 true)
           Sample.connected 7%nat [] (bstr "<IdentifyReq />")
           (bstr "<IdentifyAck/>") 10 H1 H2 H3 H4 H5).
Defined.

(** C10 as stated fails: the datagram below, read at clock 10, resets the
    timestamp from 0 to 10, so that the inactivity check at clock 20 would
    not time out, and yet the pass that reads it signals the disconnection
    and leaves the loop, because the decoder raises [LookupError]. The
    timer is reset; the session is not kept alive. *)
Lemma a_datagram_resets_the_timer_and_ends_the_session :
  let data := bstr "<?xml version='1.0' encoding='foo'?><a" in
  let tk := mkTick (NetReply data 10) 20 true in
  let d1 := final (process_message (rt := Sample.runtime) 10 data Sample.connected) in
  Sample.connected.(last_activity) = 0 /\
  d1.(last_activity) = 10 /\
  raises (check_activity (rt := Sample.runtime) 20 d1) = false /\
  exists d',
    mvn_connection_pass (rt := Sample.runtime) tk Sample.connected
    = Returned Break d' /\
    d'.(last_activity) = 10 /\
    d'.(host_calls) = [signal_device_client_disconnected] /\
    d'.(log) = Sample.connected.(log)
               ++ [(WARNING, MsgDisconnecting "MVN"
                               (LookupError "unknown encoding: foo"))].
Proof.
  cbv zeta. split; [vm_compute; reflexivity|].
  split; [vm_compute; reflexivity|]. split; [vm_compute; reflexivity|].
  eexists. split; [vm_compute; reflexivity|].
  repeat split; vm_compute; reflexivity.
Qed.

(* ------------------------------------------------------------------ *)
(** ** Flushing the queue, with either end of the shutdown *)

Section FlushFacts.
Context {rt : Runtime}.

(** A silent pass over a non-empty queue, as an equation: it sends the
    rightmost message; when that was the last one and a shutdown is
    requested it closes the socket if [socket.shutdown] returns, and ends
    in the handler of the pass if [socket.shutdown] raises. *)
Lemma silent_pass_equation tk d h q m :
  d.(socket) = Some h ->
  d.(message_queue) = q ++ [m] ->
  silent_tick d.(last_activity) tk ->
  let d1 := set_sent (d.(sent) ++ [m]) (set_message_queue q d) in
  mvn_connection_pass tk d
  = if (d.(close_socket) && match q with [] => true | _ => false end)%bool
    then
      if tk.(shutdown_ok)
      then Returned Break
             (set_socket None
                (set_open_sockets
                   (filter (fun h' => negb (Nat.eqb h h')) d.(open_sockets)) d1))
      else Returned Break
             (set_host_calls
                (d.(host_calls) ++ [signal_device_client_disconnected])
                (set_log (d.(log) ++ [(WARNING, MsgDisconnecting d.(name) OSError)])
                         d1))
    else Returned Continue d1.
Proof.
  intros Hs Hq (Hn & Ht). cbv zeta.
  rewrite (pass_connected tk d h Hs).
  destruct (pop_message_cases d) as [[Hq' _]|(m' & q' & Hq' & Hpop)].
  { rewrite Hq in Hq'. destruct q; discriminate. }
  rewrite Hq in Hq'. apply app_inj_tail in Hq' as [<- <-].
  set (d1 := set_sent (d.(sent) ++ [m]) (set_message_queue q d)).
  assert (Hchk : check_activity (t_check tk) d1 = Returned tt d1)
    by (apply check_activity_quiet; exact Ht).
  assert (Htry : mvn_connection_try tk d
                 = close_if_requested (shutdown_ok tk) d1).
  { unfold mvn_connection_try.
    rewrite (bind_returned _ _ _ _ _ Hpop). cbv beta iota.
    rewrite (bind_returned _ _ (set_message_queue q d) tt d1)
      by (rewrite Hn; reflexivity).
    rewrite (bind_returned _ _ _ _ _ Hchk). reflexivity. }
  unfold try_except. rewrite Htry.
  unfold close_if_requested. run_m.
  destruct (close_socket d) eqn:Hc; simpl; [|reflexivity].
  destruct q as [|y q]; simpl; [|reflexivity].
  destruct (shutdown_ok tk); simpl.
  - rewrite Hs. reflexivity.
  - reflexivity.
Qed.


End FlushFacts.



(** The same run, evaluated: the probe leaves before the stop request. *)
Example flush_sends_the_probe_before_the_stop_request :
  let d := set_close_socket true
             (final (send_string_to_mvn (bstr "<StopRecordingReq />")
                                        Sample.connected)) in
  let ticks := [mkTick NetSilent 5 false; mkTick NetSilent 8 true] in
  exists d',
    mvn_connection (rt := Sample.runtime) ticks d = Returned Break d' /\
    d'.(sent) = [bstr "<IdentifyReq />"; bstr "<StopRecordingReq />"] /\
    d'.(socket) = None /\
    d'.(host_calls) = [].
Proof. cbv zeta. eexists. repeat split; vm_compute; reflexivity. Qed.

(* ------------------------------------------------------------------ *)
(** ** Connect, then disconnect *)

(** X11. A device is constructed, connected on a bound socket and
    disconnected, and its session loop then makes one silent pass within
    the ping interval. The pass sends the identify probe and empties the
    queue, the thread ends and [disconnect_listener] finishes with the
    base-class call. What becomes of the socket depends on
    [socket.shutdown]: if it returns, the socket is closed, the handle is
    dropped and no disconnection is signalled; if it raises, the handler of
    the pass signals the disconnection and the socket stays open and held,
    with [is_connected] still true after the disconnect. *)
Theorem connect_then_disconnect_outcome
    {rt : Runtime} (nm ip : string) (st : DeviceStatus) (t0 t1 : Time)
    (h : Socket) (tk : Tick) :
  silent_tick t1 tk ->
  let d := run [Host (Connect (Bound h) t1); Host Disconnect; Loop 0%nat tk]
               (init nm ip st t0) in
  d.(running_loops) = [] /\
  d.(joining) = None /\
  d.(message_queue) = [] /\
  d.(sent) = [tostring (new_Element "IdentifyReq")] /\
  d.(close_socket) = true /\
  if tk.(shutdown_ok)
  then d.(socket) = None /\ is_connected d = false /\
       d.(open_sockets) = [] /\
       d.(host_calls) = [super_disconnect_listener]
  else d.(socket) = Some h /\ is_connected d = true /\
       d.(open_sockets) = [h] /\
       d.(host_calls)
       = [signal_device_client_disconnected; super_disconnect_listener].
Proof.
  intros Hq. cbv zeta. unfold run. cbn [fold_left].
  set (d2 := step (Host Disconnect)
               (step (Host (Connect (Bound h) t1)) (init nm ip st t0))).
  assert (E2 : d2.(socket) = Some h /\
               d2.(message_queue) = [] ++ [tostring (new_Element "IdentifyReq")] /\
               d2.(last_activity) = t1 /\ d2.(close_socket) = true /\
               d2.(running_loops) = [0%nat]).
  { subst d2. cbn. repeat split. }
  destruct E2 as (Hs & Hmq & Hla & Hc & Hr).
  rewrite <- Hla in Hq.
  pose proof (silent_pass_equation tk d2 h [] _ Hs Hmq Hq) as Hp.
  cbv zeta in Hp. rewrite Hc in Hp. simpl andb in Hp. cbv iota in Hp.
  assert (E3 : step (Loop 0%nat tk) d2 = final (loop_event 0%nat tk d2)).
  { unfold step. rewrite Hr. reflexivity. }
  rewrite E3. unfold loop_event.
  destruct (shutdown_ok tk).
  - rewrite (bind_returned _ _ _ _ _ Hp). cbv beta iota.
    run_m. rewrite Nat.eqb_refl. repeat split.
  - rewrite (bind_returned _ _ _ _ _ Hp). cbv beta iota.
    run_m. repeat split.
Qed.

(** The theorem for a pass that checks the clock 5 microseconds after the
    connection and whose [socket.shutdown] raises. *)
Lemma connect_then_disconnect_outcome_witness :
  let tk := mkTick NetSilent 105 false in
  let d := run (rt := Sample.runtime)
               [Host (Connect (Bound 7%nat) 100); Host Disconnect; Loop 0%nat tk]
               (init "MVN" "127.0.0.1" (OtherStatus 0) 0) in
  silent_tick 100 tk /\
  d.(running_loops) = [] /\
  d.(joining) = None /\
  d.(message_queue) = [] /\
  d.(sent) = [tostring (Runtime := Sample.runtime) (new_Element "IdentifyReq")] /\
  d.(close_socket) = true /\
  if tk.(shutdown_ok)
  then d.(socket) = None /\ is_connected d = false /\
       d.(open_sockets) = [] /\
       d.(host_calls) = [super_disconnect_listener]
  else d.(socket) = Some 7%nat /\ is_connected d = true /\
       d.(open_sockets) = [7%nat] /\
       d.(host_calls)
       = [signal_device_client_disconnected; super_disconnect_listener].
Proof.
  cbv zeta.
  assert (H : silent_tick 100 (mkTick NetSilent 105 false)).
  { split; [reflexivity|]. vm_compute. discriminate. }
  split; [exact H|].
  exact (connect_then_disconnect_outcome (rt := Sample.runtime)
           "MVN" "127.0.0.1" (OtherStatus 0) 0 100 7%nat
           (mkTick NetSilent 105 false) H).
Defined.
